(** * EyeClass: registration, live session bookkeeping and dashboard counts

    A shallow embedding of the Python sources [app.py], [register_student.py],
    [main.py] and [dashboard_app.py], followed by the properties the
    specification states about them.

    Conventions of the embedding.
    - A Python [str] is a Rocq [string]; each character stands for the code
      point with the same number (0..255).  [isspace], [isdigit] and [lower]
      follow CPython's tables on that range.
    - A Python [int] is a [Z]; [len] and counts are [nat].
    - A Python [dict] is an insertion-ordered association list with unique
      keys ([PyDict]); assigning to an existing key keeps its position.
    - A file is [None] when it does not exist.  A CSV file is its header line
      and its data lines, each line the list of the cells stored in it.  The
      registration scripts write students.csv with [newline=""] and read it
      back in text mode without it, so what they read is each stored cell
      with its line ends translated to LF.
    - Paths follow [posixpath]; saving the uploaded photo is an input of the
      request, since it fails for some paths.
    - The webcam, the face detector and the DeepFace calls are inputs: every
      frame carries what the detector and the library answered for it.
    - Python floats: face distances are the rationals they denote (NaN and
      infinities excluded); the percentage arithmetic of the session report
      is kept behind the interface [PyFloat]. *)

From Stdlib Require Import ZArith QArith Qround List String Ascii Bool Arith Lia.
From Stdlib Require Import Sorted.
Import ListNotations.

Local Close Scope Q_scope.
Local Close Scope Z_scope.
Local Open Scope nat_scope.
Local Open Scope string_scope.
Local Open Scope list_scope.

(** ** Python strings *)

Module PyStr.

Definition code (c : ascii) : nat := nat_of_ascii c.

Definition between (lo hi n : nat) : bool := (lo <=? n)%nat && (n <=? hi)%nat.

(** [str.isspace] on one character. *)
Definition isspace (c : ascii) : bool :=
  between 9 13 (code c) || between 28 32 (code c)
  || (code c =? 133)%nat || (code c =? 160)%nat.

(** [str.isdigit] on one character: 0-9 and the superscripts U+00B2,
    U+00B3, U+00B9. *)
Definition isdigit_char (c : ascii) : bool :=
  between 48 57 (code c)
  || (code c =? 178)%nat || (code c =? 179)%nat || (code c =? 185)%nat.

Definition isdecimal_char (c : ascii) : bool := between 48 57 (code c).

Fixpoint all_chars (p : ascii -> bool) (s : string) : bool :=
  match s with
  | EmptyString => true
  | String c r => p c && all_chars p r
  end.

(** Truth value of a string: [bool(s)]. *)
Definition truthy (s : string) : bool :=
  match s with EmptyString => false | _ => true end.

(** [s.isdigit()]: at least one character and all of them digits. *)
Definition isdigit (s : string) : bool := truthy s && all_chars isdigit_char s.

Definition len (s : string) : nat := String.length s.

Fixpoint lstrip (s : string) : string :=
  match s with
  | EmptyString => EmptyString
  | String c r => if isspace c then lstrip r else s
  end.

Fixpoint rstrip (s : string) : string :=
  match s with
  | EmptyString => EmptyString
  | String c r =>
      match rstrip r with
      | EmptyString => if isspace c then EmptyString else String c EmptyString
      | r' => String c r'
      end
  end.

(** [s.strip()]. *)
Definition strip (s : string) : string := rstrip (lstrip s).

Definition lower_char (c : ascii) : ascii :=
  let n := code c in
  if between 65 90 n || between 192 214 n || between 216 222 n
  then ascii_of_nat (n + 32) else c.

Fixpoint map_chars (f : ascii -> ascii) (s : string) : string :=
  match s with
  | EmptyString => EmptyString
  | String c r => String (f c) (map_chars f r)
  end.

(** [s.lower()]. *)
Definition lower (s : string) : string := map_chars lower_char s.

(** [s.replace(a, b)] for single characters [a] and [b]. *)
Definition replace_char (a b : ascii) (s : string) : string :=
  map_chars (fun c => if Ascii.eqb c a then b else c) s.

Definition startswith_char (c : ascii) (s : string) : bool :=
  match s with
  | String c' _ => Ascii.eqb c' c
  | EmptyString => false
  end.

(** What reading in text mode with the default [newline=None] makes of a
    text: CR LF and a lone CR both become LF. *)
Fixpoint universal_newlines (s : string) : string :=
  match s with
  | EmptyString => EmptyString
  | String c r =>
      if (code c =? 13)%nat then
        match r with
        | String c' r' =>
            if (code c' =? 10)%nat
            then String c' (universal_newlines r')
            else String (ascii_of_nat 10) (universal_newlines r)
        | EmptyString => String (ascii_of_nat 10) EmptyString
        end
      else String c (universal_newlines r)
  end.

End PyStr.

(** ** Python dictionaries with string keys *)

Module PyDict.

Section Dict.
Variable V : Type.

Definition t := list (string * V).

Fixpoint lookup (d : t) (k : string) : option V :=
  match d with
  | [] => None
  | (k', v) :: r => if String.eqb k' k then Some v else lookup r k
  end.

(** [d.get(k, default)]. *)
Definition get (d : t) (k : string) (default : V) : V :=
  match lookup d k with Some v => v | None => default end.

(** [k in d]. *)
Definition mem (k : string) (d : t) : bool :=
  match lookup d k with Some _ => true | None => false end.

(** [d[k] = v]: overwrite in place, or insert at the end. *)
Fixpoint set (d : t) (k : string) (v : V) : t :=
  match d with
  | [] => [(k, v)]
  | (k', v') :: r =>
      if String.eqb k' k then (k', v) :: r else (k', v') :: set r k v
  end.

Definition keys (d : t) : list string := map fst d.

(** [dict(zip(ks, vs))]. *)
Definition of_zip (ks : list string) (vs : list V) : t :=
  fold_left (fun d kv => set d (fst kv) (snd kv)) (combine ks vs) [].

End Dict.

Arguments lookup {V} d k.
Arguments get {V} d k default.
Arguments mem {V} k d.
Arguments set {V} d k v.
Arguments keys {V} d.
Arguments of_zip {V} ks vs.

End PyDict.

(** ** Exceptions of the registration scripts *)

Module Err.

Inductive exn := AttributeError | OSError | ValueError.

(** A computation that returns a value or raises. *)
Definition result (A : Type) : Type := (exn + A)%type.

End Err.

(** ** CSV files as the [csv] module reads and writes them *)

Module Csv.

(** The lines of a CSV file, the header line first; each line is the list
    of the cells stored in it, as a reader of the file opened with
    [newline=""] parses them.  Every line is newline-terminated, as
    [csv.writer] and [DataFrame.to_csv] write it. *)
Definition file := list (list string).

Definition nonempty (cells : list string) : bool :=
  match cells with [] => false | _ => true end.

(** A line as a reader sees it when the file is opened in text mode without
    [newline=""]: the line ends inside its cells are translated. *)
Definition read_text (line : list string) : list string :=
  map PyStr.universal_newlines line.

(** The row [DictReader] makes of a line: [dict(zip(fieldnames, line))],
    then [None] under every field name the line is too short for.  (The
    cells beyond the header go under the key [None], which no lookup by a
    field name reaches.) *)
Definition row_dict (fieldnames line : list string)
  : PyDict.t (option string) :=
  fold_left (fun d k => PyDict.set d k None)
            (skipn (List.length line) fieldnames)
            (PyDict.of_zip fieldnames (map Some line)).

(** [csv.DictReader(f)] on a file opened in text mode: the first line gives
    the field names, blank lines are skipped, every other line becomes a
    row. *)
Definition DictReader (f : file) : list (PyDict.t (option string)) :=
  match map read_text f with
  | [] => []
  | fieldnames :: lines => map (row_dict fieldnames) (filter nonempty lines)
  end.

(** [row.get(k, "").strip()], which raises on a cell that is [None]. *)
Definition get_strip (row : PyDict.t (option string)) (k : string)
  : Err.result string :=
  match PyDict.get row k (Some "") with
  | Some s => inr (PyStr.strip s)
  | None => inl Err.AttributeError
  end.

(** [csv.DictWriter(f, fieldnames).writerow(d)] on a file opened with mode
    ["a"] and [newline=""]: one line with the values of [d] in
    [fieldnames] order, stored as they are. *)
Definition writerow (fieldnames : list string) (d : PyDict.t string)
           (f : option file) : option file :=
  let line := map (fun k => PyDict.get d k "") fieldnames in
  match f with
  | None => Some [line]
  | Some lines => Some (lines ++ [line])
  end.

End Csv.

(** ** [app.py]: the registration web form *)

Module App.
Import PyStr.

Definition UPLOAD_FOLDER := "students".
Definition CSV_HEADER :=
  ["roll_no"; "name"; "department"; "section"; "image_path"; "email"; "phone"].

(** [ensure_students_csv]: create the file with its header when missing. *)
Definition ensure_students_csv (fs : option Csv.file) : option Csv.file :=
  match fs with
  | None => Some [CSV_HEADER]
  | Some f => Some f
  end.

(** The loop of [check_existing] over the rows of the reader.  The three
    cells of a row are read before any of them is compared. *)
Fixpoint check_rows (reader : list (PyDict.t (option string)))
         (roll_no email phone : string) : Err.result (bool * option string) :=
  match reader with
  | [] => inr (false, None)
  | row :: rest =>
      match Csv.get_strip row "roll_no" with
      | inl e => inl e
      | inr row_roll =>
          match Csv.get_strip row "email" with
          | inl e => inl e
          | inr stripped_email =>
              let row_email := lower stripped_email in
              match Csv.get_strip row "phone" with
              | inl e => inl e
              | inr row_phone =>
                  if truthy roll_no && String.eqb row_roll roll_no
                  then inr (true, Some "roll")
                  else if truthy email && truthy row_email
                          && String.eqb row_email (lower email)
                  then inr (true, Some "email")
                  else if truthy phone && truthy row_phone
                          && String.eqb row_phone phone
                  then inr (true, Some "phone")
                  else check_rows rest roll_no email phone
              end
          end
      end
  end.

Definition check_existing (fs : option Csv.file)
           (roll_no email phone : string)
  : Err.result (bool * option string) :=
  match fs with
  | None => inr (false, None)
  | Some f => check_rows (Csv.DictReader f) roll_no email phone
  end.

(** [os.path.splitext(p)[1]] (POSIX flavour). *)
Fixpoint last_from (c : ascii) (s : string) : option string :=
  match s with
  | EmptyString => None
  | String a r =>
      match last_from c r with
      | Some t => Some t
      | None => if Ascii.eqb a c then Some s else None
      end
  end.

Definition basename (p : string) : string :=
  match last_from "/"%char p with
  | Some (String _ b) => b
  | _ => p
  end.

Definition splitext_ext (p : string) : string :=
  let b := basename p in
  match last_from "."%char b with
  | None => ""
  | Some e =>
      let stem := substring 0 (len b - len e) b in
      if all_chars (fun c => Ascii.eqb c "."%char) stem then "" else e
  end.

(** [os.path.join(a, b)] for a non-empty [a] that does not end in a slash. *)
Definition path_join (a b : string) : string :=
  if startswith_char "/"%char b then b else (a ++ "/" ++ b)%string.

(** The request as [register] reads it: the method, the form fields, the
    file name of the uploaded photo, if any, and what [file.save(path)]
    raises for a path, if anything (it raises when the folder of the path
    does not exist, for one). *)
Record request := {
  method : string;
  form : PyDict.t string;
  photo : option string;
  save : string -> option Err.exn
}.

(** The response: a redirect, a rendered template, or the error page Flask
    answers when the view raises. *)
Inductive body :=
| Redirect (endpoint : string)
| Render (template : string)
| InternalServerError (e : Err.exn).

(** What one call of [register] leaves behind: the messages flashed (each
    with its category), the response, and students.csv. *)
Record outcome := {
  flashed : list (string * string);
  response : body;
  students_csv : option Csv.file
}.

(** [field == name], where [field] may be [None]. *)
Definition field_is (field : option string) (name : string) : bool :=
  match field with
  | Some f => String.eqb f name
  | None => false
  end.

Definition fail (msg : string) (fs : option Csv.file) : outcome :=
  {| flashed := [(msg, "error")]; response := Redirect "register";
     students_csv := fs |}.

(** The view raised: nothing was flashed by then. *)
Definition raise (e : Err.exn) (fs : option Csv.file) : outcome :=
  {| flashed := []; response := InternalServerError e; students_csv := fs |}.

Definition register (req : request) (fs0 : option Csv.file) : outcome :=
  let fs := ensure_students_csv fs0 in
  if String.eqb (method req) "POST" then
    let roll_no := strip (PyDict.get (form req) "roll_no" "") in
    let name := strip (PyDict.get (form req) "name" "") in
    let department := strip (PyDict.get (form req) "department" "") in
    let section := strip (PyDict.get (form req) "section" "") in
    let email := strip (PyDict.get (form req) "email" "") in
    let phone := strip (PyDict.get (form req) "phone" "") in
    let file := photo req in
    if negb (truthy roll_no) || negb (truthy name)
       || negb (truthy department) || negb (truthy section) then
      fail "Roll No, Name, Department, and Section are required." fs
    else if negb (truthy email) then
      fail "Email is required." fs
    else if negb (truthy phone) then
      fail "Phone number is required." fs
    else if negb (isdigit phone) || negb (len phone =? 10)%nat then
      fail "Phone number must contain exactly 10 digits." fs
    else
      match check_existing fs roll_no email phone with
      | inl e => raise e fs
      | inr (exists_, field) =>
          if exists_ then
            {| flashed :=
                 if field_is field "roll" then
                   [(("Roll No " ++ roll_no
                      ++ " is already registered.")%string, "error")]
                 else if field_is field "email" then
                   [(("Email " ++ email
                      ++ " is already registered.")%string, "error")]
                 else if field_is field "phone" then
                   [(("Phone " ++ phone
                      ++ " is already registered.")%string, "error")]
                 else [];
               response := Redirect "register";
               students_csv := fs |}
          else
            match file with
            | None | Some EmptyString =>
                fail "Please upload a profile photo." fs
            | Some filename =>
                let ext := lower (splitext_ext filename) in
                let ext := if truthy ext then ext else ".jpg" in
                let filename := (roll_no ++ ext)%string in
                let save_path := path_join UPLOAD_FOLDER filename in
                match save req save_path with
                | Some e => raise e fs
                | None =>
                    let image_path :=
                      replace_char "\"%char "/"%char save_path in
                    let row : PyDict.t string :=
                      [("roll_no", roll_no); ("name", name);
                       ("department", department); ("section", section);
                       ("image_path", image_path); ("email", email);
                       ("phone", phone)] in
                    {| flashed :=
                         [("Registration successful! You are now registered.",
                           "success")];
                       response := Redirect "register";
                       students_csv := Csv.writerow CSV_HEADER row fs |}
                end
            end
      end
  else
    {| flashed := []; response := Render "register.html";
       students_csv := fs |}.

End App.

(** ** [register_student.py]: registration at the console *)

Module RegisterStudent.
Import PyStr.

Definition STUDENTS_DIR := "students".
Definition CSV_HEADER :=
  ["roll_no"; "name"; "department"; "section"; "image_path"; "email"; "phone"].

(** The part of the file system the script touches. *)
Record world := {
  students_dir : bool;
  students_csv : option Csv.file
}.

(** The six lines typed at the prompts, in the order they are asked. *)
Record answers := {
  in_roll_no : string;
  in_name : string;
  in_department : string;
  in_section : string;
  in_email : string;
  in_phone : string
}.

(** The webcam: which indexes open, and for each turn of the capture loop
    the success flag of [cap.read()] and the value of [cv2.waitKey(1)]. *)
Record camera := {
  isOpened : nat -> bool;
  feed : list (bool * Z)
}.

(** What a run leaves behind: the lines printed, the file system,
    whether the run ended ([false]: the capture loop was still waiting for
    a key when the recorded feed ran out), and the exception that ended it,
    if one did. *)
Record outcome := {
  printed : list string;
  final : world;
  ended : bool;
  raised : option Err.exn
}.

Definition ensure_students_dir (w : world) : world * list string :=
  if negb (students_dir w) then
    ({| students_dir := true; students_csv := students_csv w |},
     [("Created folder: " ++ STUDENTS_DIR)%string])
  else (w, []).

Definition ensure_students_csv (w : world) : world * list string :=
  match students_csv w with
  | None =>
      ({| students_dir := students_dir w;
          students_csv := Some [CSV_HEADER] |},
       ["Created file: students.csv"])
  | Some _ => (w, [])
  end.

(** The loop of [student_exists_roll] over the rows of the reader. *)
Fixpoint scan_rows (reader : list (PyDict.t (option string)))
         (roll_no : string) : Err.result bool :=
  match reader with
  | [] => inr false
  | row :: rest =>
      match Csv.get_strip row "roll_no" with
      | inl e => inl e
      | inr row_roll =>
          if String.eqb row_roll roll_no then inr true
          else scan_rows rest roll_no
      end
  end.

Definition student_exists_roll (fs : option Csv.file) (roll_no : string)
  : Err.result bool :=
  match fs with
  | None => inr false
  | Some f => scan_rows (Csv.DictReader f) roll_no
  end.

Definition show_index (i : nat) : string :=
  match i with 0 => "0" | 1 => "1" | _ => "2" end.

(** [open_camera]: the first of the indexes [index], [index+1], ... (up to
    [n] of them) that opens. *)
Fixpoint try_indexes (cam : camera) (index n : nat)
  : option nat * list string :=
  match n with
  | 0 => (None, [])
  | S n' =>
      let line := ("Trying camera index " ++ show_index index ++ "...")%string in
      if isOpened cam index then
        (Some index,
         [line; ("✅ Using camera index " ++ show_index index)%string])
      else
        let '(found, out) := try_indexes cam (S index) n' in
        (found, line :: out)
  end.

Definition open_camera (cam : camera) : option nat * list string :=
  try_indexes cam 0 3.

(** The capture loop: SPACE (32) saves the image and appends the row,
    [q] cancels, a failed read stops. *)
Fixpoint capture (turns : list (bool * Z)) (row : PyDict.t string)
         (img_path : string) (w : world) (out : list string) : outcome :=
  match turns with
  | [] => {| printed := out; final := w; ended := false; raised := None |}
  | (ret, waitKey) :: rest =>
      if negb ret then
        {| printed := out ++ ["❌ Failed to grab frame from camera."];
           final := w; ended := true; raised := None |}
      else
        let key := Z.land waitKey 255 in
        if (key =? 32)%Z then
          {| printed :=
               out ++ [("✅ Saved image: " ++ img_path)%string;
                       "✅ Student added to students.csv"];
             final :=
               {| students_dir := students_dir w;
                  students_csv :=
                    Csv.writerow CSV_HEADER row (students_csv w) |};
             ended := true; raised := None |}
        else if (key =? 113)%Z then
          {| printed := out ++ ["❌ Cancelled without saving."];
             final := w; ended := true; raised := None |}
        else capture rest row img_path w out
  end.

Definition stop (out : list string) (msg : string) (w : world) : outcome :=
  {| printed := out ++ [msg]; final := w; ended := true; raised := None |}.

(** The run ends with an exception that nothing catches. *)
Definition crash (out : list string) (e : Err.exn) (w : world) : outcome :=
  {| printed := out; final := w; ended := true; raised := Some e |}.

Definition main (ans : answers) (cam : camera) (w0 : world) : outcome :=
  let '(w1, out1) := ensure_students_dir w0 in
  let '(w, out2) := ensure_students_csv w1 in
  let out := out1 ++ out2 in
  let roll_no := strip (in_roll_no ans) in
  let name := strip (in_name ans) in
  let department := strip (in_department ans) in
  let section := strip (in_section ans) in
  let email := strip (in_email ans) in
  let phone := strip (in_phone ans) in
  if negb (truthy roll_no) || negb (truthy name)
     || negb (truthy department) || negb (truthy section) then
    stop out "❌ Roll No, Name, Department, and Section are required." w
  else if negb (truthy email) then
    stop out "❌ Email is required." w
  else if negb (isdigit phone) || negb (len phone =? 10)%nat then
    stop out "❌ Phone number must contain exactly 10 digits." w
  else
    match student_exists_roll (students_csv w) roll_no with
    | inl e => crash out e w
    | inr true =>
        stop out
             ("❌ Roll number " ++ roll_no
              ++ " is already registered. Aborting.")%string
             w
    | inr false =>
        let img_filename := (roll_no ++ ".jpg")%string in
        let img_path := App.path_join STUDENTS_DIR img_filename in
        let '(cap, out3) := open_camera cam in
        match cap with
        | None => stop (out ++ out3) "❌ Could not open camera." w
        | Some _ =>
            let out := out ++ out3 ++
              ["✅ Camera opened.";
               "Look at the camera. Press SPACE to capture, 'q' to cancel."] in
            let row : PyDict.t string :=
              [("roll_no", roll_no); ("name", name);
               ("department", department); ("section", section);
               ("image_path", replace_char "\"%char "/"%char img_path);
               ("email", email); ("phone", phone)] in
            capture (feed cam) row img_path w out
        end
    end.

End RegisterStudent.

(** ** Python floats and exceptions *)

(** The float operations of the session report: [a / b] on two ints,
    [x * y], [round(x, 2)], the literals [0.0], [1.0] and [100.0], and the
    order of floats. *)
Class PyFloat (F : Type) := {
  true_div : Z -> Z -> F;
  fmul : F -> F -> F;
  round2 : F -> F;
  fzero : F;
  fone : F;
  fhundred : F;
  fle : F -> F -> Prop
}.

(** What the report relies on, all of it true of IEEE-754 doubles with
    round-to-nearest and of CPython's [round]. *)
Class PyFloatLaws (F : Type) `{PyFloat F} : Prop := {
  round2_zero : round2 fzero = fzero;
  fzero_le_hundred : fle fzero fhundred;
  fle_trans : forall x y z : F, fle x y -> fle y z -> fle x z;
  true_div_mono :
    forall a b c : Z, (a <= b)%Z -> (0 < c)%Z ->
                      fle (true_div a c) (true_div b c);
  true_div_self : forall c : Z, (0 < c)%Z -> fle (true_div c c) fone;
  fmul_hundred_mono :
    forall x y : F, fle x y -> fle (fmul x fhundred) (fmul y fhundred);
  fmul_one_hundred : fle (fmul fone fhundred) fhundred;
  round2_mono : forall x y : F, fle x y -> fle (round2 x) (round2 y);
  round2_hundred : fle (round2 fhundred) fhundred
}.

Module Py.

Inductive exn := ZeroDivisionError | IndexError.

(** A computation that returns a value or raises. *)
Definition result (A : Type) : Type := exn + A.

Definition ret {A} (a : A) : result A := inr a.
Definition raise {A} (e : exn) : result A := inl e.

Definition bind {A B} (m : result A) (k : A -> result B) : result B :=
  match m with
  | inl e => inl e
  | inr a => k a
  end.

(** [a / b] on ints. *)
Definition truediv {F} `{PyFloat F} (a b : Z) : result F :=
  if (b =? 0)%Z then raise ZeroDivisionError else ret (true_div a b).

Definition Qlt_bool (a b : Q) : bool := negb (Qle_bool b a).

End Py.

Notation "x <- m ;; k" := (Py.bind m (fun x => k))
  (at level 61, m at next level, right associativity).

(** ** [main.py]: the live session *)

Module Main.
Import PyStr.

(** 0.6 as a double: 0x3FE3333333333333. *)
Definition FACE_MATCH_THRESHOLD : Q := 5404319552844595 # 9007199254740992.
Definition PROCESS_EVERY_N_FRAMES : Z := 3.

(** A row of the DataFrame that [load_students] returns; every cell is a
    string there.  [col_email] and [col_phone] are [""] when the file has
    no such column, which is what [row.get(col, "")] answers. *)
Record student_row := {
  col_roll_no : string;
  col_name : string;
  col_department : string;
  col_section : string;
  col_image_path : string;
  col_email : string;
  col_phone : string
}.

(** The value kept per roll number in the attendance dictionary. *)
Record info := {
  name : string;
  department : string;
  section : string;
  email : string;
  phone : string;
  present : bool;
  frames_present : Z;
  frames_attentive : Z;
  dominant_emotions : list string
}.

Definition init_attendance_dict (students_df : list student_row)
  : PyDict.t info :=
  fold_left
    (fun attendance row =>
       PyDict.set attendance (col_roll_no row)
         {| name := col_name row;
            department := col_department row;
            section := col_section row;
            email := col_email row;
            phone := col_phone row;
            present := false;
            frames_present := 0;
            frames_attentive := 0;
            dominant_emotions := [] |})
    students_df [].

(** What [DeepFace.verify] answers: it raises, or returns a dictionary
    whose ["distance"] entry may be missing. *)
Inductive verify_result :=
| VerifyRaises
| VerifyDict (distance : option Q).

(** What [DeepFace.analyze] answers: it raises, or returns a dictionary,
    or a list of dictionaries. *)
Inductive analyze_result :=
| AnalyzeRaises
| AnalyzeDict (d : PyDict.t string)
| AnalyzeList (l : list (PyDict.t string)).

(** A detected face: its box, and what the outside world answers when the
    loop asks about its cropped image. *)
Record face := {
  x : Z;
  y : Z;
  w_box : Z;
  h_box : Z;
  analyze : analyze_result;
  path_exists : string -> bool;
  verify : string -> verify_result
}.

(** The calls made to DeepFace, oldest first. *)
Inductive api_call :=
| CallAnalyze (frame_no : Z) (f : face)
| CallVerify (frame_no : Z) (f : face) (img_path : string).

(** The loop of [identify_student]; [calls] collects the [verify] calls. *)
Fixpoint identify_loop (frame_no : Z) (f : face) (rows : list student_row)
         (best_match_roll_no : option string) (best_distance : option Q)
         (calls : list api_call)
  : option string * option Q * list api_call :=
  match rows with
  | [] => (best_match_roll_no, best_distance, calls)
  | row :: rest =>
      let roll_no := col_roll_no row in
      let img_path := col_image_path row in
      if negb (path_exists f img_path) then
        identify_loop frame_no f rest best_match_roll_no best_distance calls
      else
        let calls := calls ++ [CallVerify frame_no f img_path] in
        match verify f img_path with
        | VerifyRaises =>
            identify_loop frame_no f rest best_match_roll_no best_distance calls
        | VerifyDict None =>
            identify_loop frame_no f rest best_match_roll_no best_distance calls
        | VerifyDict (Some distance) =>
            if match best_distance with
               | None => true
               | Some best => Py.Qlt_bool distance best
               end
            then identify_loop frame_no f rest (Some roll_no) (Some distance) calls
            else identify_loop frame_no f rest best_match_roll_no best_distance calls
        end
  end.

Definition identify_student_traced (frame_no : Z) (f : face)
           (students_df : list student_row)
  : option string * list api_call :=
  let '(best_match_roll_no, best_distance, calls) :=
    identify_loop frame_no f students_df None None [] in
  match best_distance with
  | Some d =>
      if Py.Qlt_bool d FACE_MATCH_THRESHOLD then (best_match_roll_no, calls)
      else (None, calls)
  | None => (None, calls)
  end.

Definition identify_student (f : face) (students_df : list student_row)
  : option string :=
  fst (identify_student_traced 0 f students_df).

Definition get_dominant_emotion (f : face) : string :=
  match analyze f with
  | AnalyzeRaises => "unknown"
  | AnalyzeDict d => PyDict.get d "dominant_emotion" "unknown"
  | AnalyzeList [] => "unknown"
  | AnalyzeList (d :: _) => PyDict.get d "dominant_emotion" "unknown"
  end.

Definition color := (Z * Z * Z)%type.

Definition estimate_attention_status (x y w h frame_width frame_height : Z)
  : string * color :=
  let frame_center_x := (frame_width / 2)%Z in
  let frame_center_y := (frame_height / 2)%Z in
  let face_center_x := (x + w / 2)%Z in
  let face_center_y := (y + h / 2)%Z in
  let tolerance_x := (inject_Z frame_width * (1 # 4))%Q in
  let tolerance_y := (inject_Z frame_height * (1 # 4))%Q in
  if Py.Qlt_bool (inject_Z (Z.abs (face_center_x - frame_center_x))) tolerance_x
     && Py.Qlt_bool (inject_Z (Z.abs (face_center_y - frame_center_y))) tolerance_y
  then ("Attentive", (0, 255, 0)%Z)
  else ("Not attentive", (0, 0, 255)%Z).

(** [Counter(l)]: the number of occurrences per label, labels in the order
    of their first occurrence. *)
Definition Counter (l : list string) : PyDict.t Z :=
  fold_left (fun c e => PyDict.set c e (PyDict.get c e 0 + 1)%Z) l [].

(** [max(items, key=count)]: the first item with the largest count. *)
Fixpoint max_item (best : string * Z) (items : list (string * Z))
  : string * Z :=
  match items with
  | [] => best
  | it :: rest =>
      if (snd best <? snd it)%Z then max_item it rest else max_item best rest
  end.

(** [c.most_common(1)]. *)
Definition most_common_1 (c : PyDict.t Z) : list (string * Z) :=
  match c with
  | [] => []
  | it :: rest => [max_item it rest]
  end.

(** [l[0][0]]. *)
Definition first_label (l : list (string * Z)) : Py.result string :=
  match l with
  | [] => Py.raise Py.IndexError
  | it :: _ => Py.ret (fst it)
  end.

Section Report.
Context {F : Type} `{PyFloat F}.

(** A row of the session report, one field per column. *)
Record report_row := {
  Roll_No : string;
  Name : string;
  Department : string;
  Section_ : string;
  Session_Date : string;
  Session_Time : string;
  Status : string;
  Pct_Time_Present : F;
  Pct_Time_Attentive : F;
  Dominant_Emotion : string
}.

(** The body of the loop of [compute_session_report]: the row appended
    for one item of the attendance dictionary. *)
Definition report_row_of (roll_no : string) (info : info)
           (total_frames : Z) (session_date session_time : string)
  : Py.result report_row :=
  let frames_present := frames_present info in
  let frames_attentive := frames_attentive info in
  let emotions_list := dominant_emotions info in
  let mk status present_pct attention_pct dominant_emotion_final :=
    {| Roll_No := roll_no;
       Name := name info;
       Department := department info;
       Section_ := section info;
       Session_Date := session_date;
       Session_Time := session_time;
       Status := status;
       Pct_Time_Present := round2 present_pct;
       Pct_Time_Attentive := round2 attention_pct;
       Dominant_Emotion := dominant_emotion_final |} in
  if (frames_present =? 0)%Z then
    Py.ret (mk "Absent" fzero fzero "N/A")
  else
    q <- Py.truediv frames_present (Z.max total_frames 1) ;;
    let present_pct := fmul q fhundred in
    q' <- Py.truediv frames_attentive frames_present ;;
    let attention_pct := fmul q' fhundred in
    dominant_emotion_final <-
      match emotions_list with
      | [] => Py.ret "unknown"
      | _ => first_label (most_common_1 (Counter emotions_list))
      end ;;
    Py.ret (mk "Present" present_pct attention_pct dominant_emotion_final).

Fixpoint report_rows (items : list (string * info)) (total_frames : Z)
         (session_date session_time : string)
  : Py.result (list report_row) :=
  match items with
  | [] => Py.ret []
  | (roll_no, info) :: rest =>
      row <- report_row_of roll_no info total_frames
               session_date session_time ;;
      rows <- report_rows rest total_frames session_date session_time ;;
      Py.ret (row :: rows)
  end.

(** The rows of the DataFrame returned, in order. *)
Definition compute_session_report (attendance : PyDict.t info)
           (total_frames : Z) (session_date session_time : string)
  : Py.result (list report_row) :=
  report_rows attendance total_frames session_date session_time.

(** A cell of class_report.csv: text, or a number as [to_csv] prints
    it. *)
Inductive cell := Text (s : string) | Number (v : F).

Definition report_file := list (list cell).

Definition REPORT_COLUMNS : list string :=
  ["Roll No"; "Name"; "Department"; "Section"; "Session Date";
   "Session Time"; "Status"; "% Time Present (approx)";
   "% Time Attentive"; "Dominant Emotion"].

(** The columns of [pd.DataFrame(rows)]: none when there is no row. *)
Definition columns (df : list report_row) : list string :=
  match df with
  | [] => []
  | _ => REPORT_COLUMNS
  end.

Definition line_of (r : report_row) : list cell :=
  [Text (Roll_No r); Text (Name r); Text (Department r);
   Text (Section_ r); Text (Session_Date r); Text (Session_Time r);
   Text (Status r); Number (Pct_Time_Present r);
   Number (Pct_Time_Attentive r); Text (Dominant_Emotion r)].

(** [df.to_csv(path, mode=mode, header=header, index=False)]: mode
    ["w"] starts from an empty file, any other mode here is ["a"] and
    writes after what is there. *)
Definition to_csv (df : list report_row) (mode : string) (header : bool)
           (fs : option report_file) : option report_file :=
  let lines :=
    (if header then [map Text (columns df)] else []) ++ map line_of df in
  if String.eqb mode "w" then Some lines
  else
    match fs with
    | None => Some lines
    | Some old => Some (old ++ lines)
    end.

(** The last step of [main]: write the report of the session. *)
Definition write_report (report_df : list report_row)
           (fs : option report_file) : option report_file :=
  let file_exists := match fs with Some _ => true | None => false end in
  to_csv report_df (if file_exists then "a" else "w")
         (negb file_exists) fs.

End Report.

(** The state of the session loop: the attendance dictionary, the frame
    counter, and the DeepFace calls made so far. *)
Record session := {
  attendance : PyDict.t info;
  total_frames : Z;
  calls : list api_call
}.

(** One turn of the camera: the flag of [cap.read()], the shape of the
    frame once the loop has scaled it down to [FRAME_TARGET_WIDTH], the
    boxes the Haar cascade found in it, and the value of
    [cv2.waitKey(1)]. *)
Record frame := {
  ret : bool;
  height : Z;
  width : Z;
  faces : list face;
  waitKey : Z
}.

(** [info = attendance[roll_no]] followed by the updates of [info], which
    is the object stored in the dictionary. *)
Definition mark_seen (i : info) (attention_status dominant_emotion : string)
  : info :=
  {| name := name i;
     department := department i;
     section := section i;
     email := email i;
     phone := phone i;
     present := true;
     frames_present := frames_present i + 1;
     frames_attentive :=
       if String.eqb attention_status "Attentive"
       then frames_attentive i + 1 else frames_attentive i;
     dominant_emotions :=
       if negb (String.eqb dominant_emotion "unknown")
       then dominant_emotions i ++ [dominant_emotion]
       else dominant_emotions i |}.

(** The body of [for (x, y, w_box, h_box) in faces]. *)
Definition process_face (students_df : list student_row) (do_heavy : bool)
           (w h : Z) (st : session) (f : face) : session :=
  if do_heavy then
    let dominant_emotion := get_dominant_emotion f in
    let calls1 := calls st ++ [CallAnalyze (total_frames st) f] in
    let '(attention_status, _) :=
      estimate_attention_status (x f) (y f) (w_box f) (h_box f) w h in
    let '(roll_no, verify_calls) :=
      identify_student_traced (total_frames st) f students_df in
    let calls2 := calls1 ++ verify_calls in
    match roll_no with
    | Some r =>
        match PyDict.lookup (attendance st) r with
        | Some i =>
            {| attendance :=
                 PyDict.set (attendance st) r
                   (mark_seen i attention_status dominant_emotion);
               total_frames := total_frames st;
               calls := calls2 |}
        | None =>
            {| attendance := attendance st;
               total_frames := total_frames st;
               calls := calls2 |}
        end
    | None =>
        {| attendance := attendance st;
           total_frames := total_frames st;
           calls := calls2 |}
    end
  else st.

(** The body of [while True] up to the key test: count the frame and
    handle its faces. *)
Definition process_frame (students_df : list student_row) (st : session)
           (fr : frame) : session :=
  let st1 := {| attendance := attendance st;
                total_frames := total_frames st + 1;
                calls := calls st |} in
  let do_heavy :=
    (total_frames st1 mod PROCESS_EVERY_N_FRAMES =? 0)%Z in
  fold_left (process_face students_df do_heavy (width fr) (height fr))
            (faces fr) st1.

(** [while True]: a failed read or the key [q] breaks.  The flag tells
    whether the loop was left ([false]: the recorded turns ran out with
    the loop still going). *)
Fixpoint session_loop (students_df : list student_row) (turns : list frame)
         (st : session) : session * bool :=
  match turns with
  | [] => (st, false)
  | fr :: rest =>
      if negb (ret fr) then (st, true)
      else
        let st' := process_frame students_df st fr in
        if (Z.land (waitKey fr) 255 =? 113)%Z then (st', true)
        else session_loop students_df rest st'
  end.

Definition start (students_df : list student_row) : session :=
  {| attendance := init_attendance_dict students_df;
     total_frames := 0;
     calls := [] |}.

Inductive exit :=
| LoadFailed | CascadeFailed | NoCamera | StillRunning
| Raised (e : Py.exn) | Done.

Section Run.
Context {F : Type} `{PyFloat F}.

(** [main]: [students] is what [load_students] returned ([None]: it
    raised), [camera] the turns of the opened camera ([None]: no index
    opened); the result is class_report.csv afterwards. *)
Definition main (session_date session_time : string)
           (students : option (list student_row)) (cascade_ok : bool)
           (camera : option (list frame))
           (fs : option (@report_file F)) : exit * option report_file :=
  match students with
  | None => (LoadFailed, fs)
  | Some students_df =>
      if negb cascade_ok then (CascadeFailed, fs)
      else
        match camera with
        | None => (NoCamera, fs)
        | Some turns =>
            let '(st, stopped) := session_loop students_df turns
                                 (start students_df) in
            if stopped then
              match compute_session_report (attendance st)
                      (total_frames st) session_date session_time with
              | inl e => (Raised e, fs)
              | inr report_df => (Done, write_report report_df fs)
              end
            else (StillRunning, fs)
        end
  end.

End Run.

End Main.

(** ** [dashboard_app.py]: the home page *)

Module Dashboard.
Import PyStr.

(** A data line of students.csv as [pd.read_csv] gives it. *)
Record student := {
  roll_no : string;
  name : string;
  department : string;
  section : string;
  image_path : string;
  email : string;
  phone : string;
  image_file : string
}.

(** A data line of class_report.csv, its cells as text. *)
Record report := {
  Roll_No : string;
  Name : string;
  Department : string;
  Section_ : string;
  Session_Date : string;
  Session_Time : string;
  Status : string;
  Pct_Time_Present : string;
  Pct_Time_Attentive : string;
  Dominant_Emotion : string
}.

(** [load_students]: no row when the file is missing; otherwise every
    cell stripped and the file name of the image added. *)
Definition load_students (fs : option (list student)) : list student :=
  match fs with
  | None => []
  | Some df =>
      map (fun r =>
             {| roll_no := strip (roll_no r);
                name := strip (name r);
                department := strip (department r);
                section := strip (section r);
                image_path := strip (image_path r);
                email := strip (email r);
                phone := strip (phone r);
                image_file := App.basename (strip (image_path r)) |}) df
  end.

(** [load_reports]: no row when the file is missing; otherwise the text
    cells stripped. *)
Definition load_reports (fs : option (list report)) : list report :=
  match fs with
  | None => []
  | Some df =>
      map (fun r =>
             {| Roll_No := strip (Roll_No r);
                Name := strip (Name r);
                Department := strip (Department r);
                Section_ := strip (Section_ r);
                Session_Date := strip (Session_Date r);
                Session_Time := strip (Session_Time r);
                Status := strip (Status r);
                Pct_Time_Present := Pct_Time_Present r;
                Pct_Time_Attentive := Pct_Time_Attentive r;
                Dominant_Emotion := strip (Dominant_Emotion r) |}) df
  end.

Definition empty {A} (df : list A) : bool :=
  match df with [] => true | _ => false end.

(** [(df[col] == v).sum()]. *)
Definition count_eq {A} (col : A -> string) (v : string) (df : list A) : nat :=
  List.length (filter (fun r => String.eqb (col r) v) df).

(** The three counts [home] hands to the template. *)
Record summary := {
  total_students : nat;
  present_count : nat;
  absent_count : nat
}.

Definition home (today : string) (students_csv : option (list student))
           (class_report_csv : option (list report)) : summary :=
  let students_df := load_students students_csv in
  let reports_df := load_reports class_report_csv in
  let total_students := List.length students_df in
  let today_reports :=
    if negb (empty reports_df)
    then filter (fun r => String.eqb (Session_Date r) today) reports_df
    else [] in
  if negb (empty today_reports) then
    {| total_students := total_students;
       present_count := count_eq Status "Present" today_reports;
       absent_count := count_eq Status "Absent" today_reports |}
  else
    {| total_students := total_students;
       present_count := 0;
       absent_count := total_students |}.

End Dashboard.

(** ** Exact arithmetic as an instance of the float interface

    Rationals in lowest terms, [round] to two decimals with halves up. *)

Module QFloat.

Definition div (a b : Z) : Q := Qred (inject_Z a / inject_Z b).
Definition mul (x y : Q) : Q := Qred (x * y).
Definition round_2 (x : Q) : Q :=
  Qred (Qfloor (x * inject_Z 100 + (1 # 2)) # 100).

#[global] Instance ops : PyFloat Q := {|
  true_div := div;
  fmul := mul;
  round2 := round_2;
  fzero := 0%Q;
  fone := 1%Q;
  fhundred := inject_Z 100;
  fle := Qle
|}.

End QFloat.

(** ** Vocabulary of the statements *)

Module Says.
Import PyStr.

(** A line printed for a failure starts with the cross mark. *)
Definition is_error_line (line : string) : bool := prefix "❌" line.

(** students.csv after [ensure_students_csv] and nothing else. *)
Definition created_if_missing (fs : option Csv.file) : option Csv.file :=
  match fs with
  | None => Some [App.CSV_HEADER]
  | Some f => Some f
  end.

(** The phone number [p] is empty, has a character that [str.isdigit]
    rejects, or is not 10 characters long. *)
Definition bad_phone (p : string) : Prop :=
  p = "" \/ all_chars isdigit_char p = false \/ len p <> 10.

(** The coordinate [a] lies strictly within 25% of [size] of [center]. *)
Definition within_quarter (a center size : Z) : Prop :=
  (inject_Z (Z.abs (a - center)) < inject_Z size * (25 # 100))%Q.

(** For the face [f], the comparison with the image of [row] succeeded
    and gave the distance [d]. *)
Definition compared (f : Main.face) (row : Main.student_row) (d : Q)
  : Prop :=
  Main.path_exists f (Main.col_image_path row) = true /\
  Main.verify f (Main.col_image_path row) = Main.VerifyDict (Some d).

(** What the loop of [identify_student] knows after the rows [seen]. *)
Definition best_so_far (f : Main.face) (seen : list Main.student_row)
           (best_roll : option string) (best_distance : option Q) : Prop :=
  match best_distance with
  | None =>
      best_roll = None /\
      forall row d, In row seen -> ~ compared f row d
  | Some best =>
      (exists row, In row seen /\ best_roll = Some (Main.col_roll_no row) /\
                   compared f row best) /\
      forall row d, In row seen -> compared f row d -> (best <= d)%Q
  end.

(** The data lines of a file, none when the file is missing. *)
Definition rows_of {A : Type} (file : option (list A)) : list A :=
  match file with
  | Some rows => rows
  | None => []
  end.

(** The number of lines of class_report.csv whose Session Date is [today]
    and whose Status is [status], both up to surrounding blanks. *)
Definition rows_on (today status : string) (lines : list Dashboard.report)
  : nat :=
  List.length
    (filter (fun r => String.eqb (strip (Dashboard.Session_Date r)) today
                      && String.eqb (strip (Dashboard.Status r)) status)
            lines).

(** Some line of class_report.csv has the Session Date [today], up to
    surrounding blanks. *)
Definition reported_on (today : string) (lines : list Dashboard.report)
  : bool :=
  existsb (fun r => String.eqb (strip (Dashboard.Session_Date r)) today)
          lines.

(** The label [label] occurs in [l], and no label occurs more often. *)
Definition most_frequent (label : string) (l : list string) : Prop :=
  In label l /\
  forall e, count_occ string_dec l e <= count_occ string_dec l label.

(** In every entry, [frames_attentive] is between 0 and
    [frames_present]. *)
Definition counters_ok (attendance : PyDict.t Main.info) : Prop :=
  forall k i, In (k, i) attendance ->
              (0 <= Main.frames_attentive i <= Main.frames_present i)%Z.

(** From [i] to [i'] nothing was counted, or one more frame present and at
    most one more frame attentive. *)
Definition counted_once (i i' : Main.info) : Prop :=
  (Main.frames_present i' = Main.frames_present i /\
   Main.frames_attentive i' = Main.frames_attentive i) \/
  (Main.frames_present i' = Main.frames_present i + 1 /\
   (Main.frames_attentive i' = Main.frames_attentive i \/
    Main.frames_attentive i' = Main.frames_attentive i + 1))%Z.

(** The DeepFace calls for the face [f] of frame [n]: one [analyze], then
    one [verify] per student row whose image file exists, in row order. *)
Definition heavy_calls (n : Z) (students_df : list Main.student_row)
           (f : Main.face) : list Main.api_call :=
  Main.CallAnalyze n f
  :: map (Main.CallVerify n f)
         (filter (Main.path_exists f)
                 (map Main.col_image_path students_df)).

(** The attendance dictionary once the answers for the face [f] are
    counted: the student identified, if registered, is marked seen. *)
Definition counted (students_df : list Main.student_row) (w h : Z)
           (attendance : PyDict.t Main.info) (f : Main.face)
  : PyDict.t Main.info :=
  match Main.identify_student f students_df with
  | Some r =>
      match PyDict.lookup attendance r with
      | Some i =>
          PyDict.set attendance r
            (Main.mark_seen i
               (fst (Main.estimate_attention_status
                       (Main.x f) (Main.y f) (Main.w_box f) (Main.h_box f)
                       w h))
               (Main.get_dominant_emotion f))
      | None => attendance
      end
  | None => attendance
  end.

(** The emotion named in the answer of [DeepFace.analyze] for the face:
    the ["dominant_emotion"] of the dictionary answered, or of the first
    one of a list; "unknown" when the call raised, the list was empty or
    the entry is missing. *)
Definition answered_emotion (f : Main.face) : string :=
  let named (d : PyDict.t string) :=
    match PyDict.lookup d "dominant_emotion" with
    | Some e => e
    | None => "unknown"
    end in
  match Main.analyze f with
  | Main.AnalyzeRaises => "unknown"
  | Main.AnalyzeDict d => named d
  | Main.AnalyzeList l =>
      match l with
      | d :: _ => named d
      | [] => "unknown"
      end
  end.

(** The centre of the box of the face lies strictly within a quarter of
    the width, and of the height, of the centre of a frame of [w] by [h]. *)
Definition centred (f : Main.face) (w h : Z) : Prop :=
  within_quarter (Main.x f + Main.w_box f / 2) (w / 2) w /\
  within_quarter (Main.y f + Main.h_box f / 2) (h / 2) h.

(** The student with the roll number [r] is a nearest one to the face
    among those whose comparison succeeded, at a distance below the
    threshold. *)
Definition recognised (f : Main.face) (students_df : list Main.student_row)
           (r : string) : Prop :=
  exists d, best_so_far f students_df (Some r) (Some d) /\
            (d < Main.FACE_MATCH_THRESHOLD)%Q.

(** No comparison succeeded for the face, or the nearest student is at the
    threshold or farther. *)
Definition unrecognised (f : Main.face)
           (students_df : list Main.student_row) : Prop :=
  (forall row d, In row students_df -> ~ compared f row d) \/
  exists r d, best_so_far f students_df r (Some d) /\
              (Main.FACE_MATCH_THRESHOLD <= d)%Q.

(** The entry [i'] is the entry [i] after the face [f] was counted for it in
    a frame of [w] by [h]: the same student, flagged present, one more
    present frame, one more attentive frame exactly when the face is
    centred, and the emotion answered for the face added to the list unless
    it is "unknown". *)
Definition marked (f : Main.face) (w h : Z) (i i' : Main.info) : Prop :=
  Main.name i' = Main.name i /\
  Main.department i' = Main.department i /\
  Main.section i' = Main.section i /\
  Main.email i' = Main.email i /\
  Main.phone i' = Main.phone i /\
  Main.present i' = true /\
  Main.frames_present i' = (Main.frames_present i + 1)%Z /\
  (centred f w h ->
   Main.frames_attentive i' = (Main.frames_attentive i + 1)%Z) /\
  (~ centred f w h -> Main.frames_attentive i' = Main.frames_attentive i) /\
  (answered_emotion f <> "unknown" ->
   Main.dominant_emotions i'
   = Main.dominant_emotions i ++ [answered_emotion f]) /\
  (answered_emotion f = "unknown" ->
   Main.dominant_emotions i' = Main.dominant_emotions i).

(** The dictionary [a'] is [a] with the entry of [r] replaced by [i']: the
    same keys in the same order, and every other entry as it was. *)
Definition entry_replaced (a : PyDict.t Main.info) (r : string)
           (i' : Main.info) (a' : PyDict.t Main.info) : Prop :=
  PyDict.keys a' = PyDict.keys a /\
  PyDict.lookup a' r = Some i' /\
  forall k, k <> r -> PyDict.lookup a' k = PyDict.lookup a k.

(** Handling the face [f] takes the attendance dictionary from [a] to
    [a']: the entry of a recognised student is marked, and nothing changes
    when the face is not recognised or the student has no entry. *)
Definition face_counted (students_df : list Main.student_row) (w h : Z)
           (f : Main.face) (a a' : PyDict.t Main.info) : Prop :=
  (exists r i i',
      recognised f students_df r /\ PyDict.lookup a r = Some i /\
      marked f w h i i' /\ entry_replaced a r i' a') \/
  (a' = a /\
   (unrecognised f students_df \/
    exists r, recognised f students_df r /\ PyDict.lookup a r = None)).

(** The same for the faces of a frame, one after the other. *)
Inductive faces_counted (students_df : list Main.student_row) (w h : Z)
  : list Main.face -> PyDict.t Main.info -> PyDict.t Main.info -> Prop :=
| counted_none (a : PyDict.t Main.info) :
    faces_counted students_df w h [] a a
| counted_next (f : Main.face) (fs : list Main.face)
               (a a1 a' : PyDict.t Main.info) :
    face_counted students_df w h f a a1 ->
    faces_counted students_df w h fs a1 a' ->
    faces_counted students_df w h (f :: fs) a a'.

End Says.

(** ** Sample inputs *)

Module Sample.

Definition students_csv : Csv.file :=
  [App.CSV_HEADER;
   ["12"; "Asha"; "CSE"; "A"; "students/12.jpg"; "asha@example.com";
    "9876543210"]].

Definition form (roll_no phone : string) : PyDict.t string :=
  [("roll_no", roll_no); ("name", "Ravi"); ("department", "ECE");
   ("section", "B"); ("email", "ravi@example.com"); ("phone", phone)].

(** A POST with a photo; the photo can be saved wherever it goes. *)
Definition post (roll_no phone : string) : App.request :=
  {| App.method := "POST"; App.form := form roll_no phone;
     App.photo := Some "me.PNG"; App.save := fun _ => None |}.

(** A roll number with a carriage return inside: 7, CR, 7. *)
Definition cr_roll : string :=
  String "7"%char (String (ascii_of_nat 13) (String "7"%char "")).

(** A POST of another student: another name, email and phone. *)
Definition second_post (roll_no : string) : App.request :=
  {| App.method := "POST";
     App.form :=
       [("roll_no", roll_no); ("name", "Mena"); ("department", "ECE");
        ("section", "B"); ("email", "mena@example.com");
        ("phone", "9000000001")];
     App.photo := Some "mena.jpg"; App.save := fun _ => None |}.

(** A students.csv with a line cut short after the roll number. *)
Definition cut_csv : Csv.file := [App.CSV_HEADER; ["12"]].

(** A POST whose roll number names folders that do not exist, so that
    saving the photo raises. *)
Definition folder_post : App.request :=
  {| App.method := "POST"; App.form := form "21/CS/045" "9876543211";
     App.photo := Some "me.PNG";
     App.save := fun path =>
       if String.eqb path "students/21/CS/045.png"
       then Some Err.OSError else None |}.

Definition typed (roll_no phone : string) : RegisterStudent.answers :=
  {| RegisterStudent.in_roll_no := roll_no;
     RegisterStudent.in_name := "Ravi";
     RegisterStudent.in_department := "ECE";
     RegisterStudent.in_section := "B";
     RegisterStudent.in_email := "ravi@example.com";
     RegisterStudent.in_phone := phone |}.

(** The first camera opens; the user presses SPACE on the second turn. *)
Definition webcam : RegisterStudent.camera :=
  {| RegisterStudent.isOpened := fun _ => true;
     RegisterStudent.feed := [(true, (-1)%Z); (true, 32%Z)] |}.

Definition disk (fs : option Csv.file) : RegisterStudent.world :=
  {| RegisterStudent.students_dir := true;
     RegisterStudent.students_csv := fs |}.

(** Ten times the character U+00B2, SUPERSCRIPT TWO. *)
Definition superscript_phone : string :=
  let c := ascii_of_nat 178 in
  String c (String c (String c (String c (String c
    (String c (String c (String c (String c (String c ""))))))))).

Definition student (roll_no name image_path : string) : Main.student_row :=
  {| Main.col_roll_no := roll_no; Main.col_name := name;
     Main.col_department := "CSE"; Main.col_section := "A";
     Main.col_image_path := image_path;
     Main.col_email := ""; Main.col_phone := "" |}.

(** Three students; the image of the third is missing on disk. *)
Definition students_df : list Main.student_row :=
  [student "12" "Asha" "students/12.jpg";
   student "13" "Ravi" "students/13.jpg";
   student "14" "Mena" "students/14.jpg"].

(** A face near the centre of a 640x480 frame, closest to student 13. *)
Definition a_face : Main.face :=
  {| Main.x := 280; Main.y := 200; Main.w_box := 80; Main.h_box := 80;
     Main.analyze := Main.AnalyzeList [[("dominant_emotion", "happy")]];
     Main.path_exists := fun p => negb (String.eqb p "students/14.jpg");
     Main.verify := fun p =>
       if String.eqb p "students/12.jpg"
       then Main.VerifyDict (Some (7 # 10)%Q)
       else if String.eqb p "students/13.jpg"
            then Main.VerifyDict (Some (1 # 4)%Q)
            else Main.VerifyRaises |}.

Definition seen (n : string) (present attentive : Z) (emotions : list string)
  : Main.info :=
  {| Main.name := n; Main.department := "CSE"; Main.section := "A";
     Main.email := ""; Main.phone := "";
     Main.present := negb (present =? 0)%Z;
     Main.frames_present := present;
     Main.frames_attentive := attentive;
     Main.dominant_emotions := emotions |}.

(** An attendance dictionary at the end of a session of 30 frames. *)
Definition attendance : PyDict.t Main.info :=
  [("12", seen "Asha" 8 6 ["happy"; "neutral"; "happy"]);
   ("13", seen "Ravi" 0 0 []);
   ("14", seen "Mena" 3 3 [])].

Definition shot (key : Z) : Main.frame :=
  {| Main.ret := true; Main.height := 480; Main.width := 640;
     Main.faces := [a_face]; Main.waitKey := key |}.

(** Six frames showing [a_face]; the user presses [q] on the sixth. *)
Definition turns : list Main.frame :=
  [shot (-1); shot (-1); shot (-1); shot (-1); shot (-1); shot 113].

End Sample.

(** ** Further vocabulary: registration *)

Module Terms.
Import PyStr.


(** The cell of a row under a field name, as the scans ask for it: [None]
    on a line too short to have it, [""] when the header has no such
    name. *)
Definition cell (row : PyDict.t (option string)) (k : string)
  : option string :=
  PyDict.get row k (Some "").





(** The form field [k] as [register] reads it. *)
Definition field (req : App.request) (k : string) : string :=
  strip (PyDict.get (App.form req) k "").
























End Terms.

(** ** Further vocabulary: the session *)

Module SessionTerms.

(** The turns the loop handles: those before the first failed read, up to
    and including the first one with the key [q]. *)
Fixpoint captured (turns : list Main.frame) : list Main.frame :=
  match turns with
  | [] => []
  | fr :: rest =>
      if negb (Main.ret fr) then []
      else if (Z.land (Main.waitKey fr) 255 =? 113)%Z then [fr]
      else fr :: captured rest
  end.

(** Some turn has a failed read or the key [q]. *)
Definition breaks (turns : list Main.frame) : bool :=
  existsb (fun fr => negb (Main.ret fr)
                     || (Z.land (Main.waitKey fr) 255 =? 113)%Z) turns.

(** The DeepFace calls of the frames [frames], the first of which is
    frame number [n + 1]: those of every frame whose number is a multiple of
    [PROCESS_EVERY_N_FRAMES], in order. *)
Fixpoint calls_from (n : Z) (students_df : list Main.student_row)
         (frames : list Main.frame) : list Main.api_call :=
  match frames with
  | [] => []
  | fr :: rest =>
      (if ((n + 1) mod Main.PROCESS_EVERY_N_FRAMES =? 0)%Z
       then flat_map (Says.heavy_calls (n + 1) students_df) (Main.faces fr)
       else [])
      ++ calls_from (n + 1) students_df rest
  end.

(** The fields of an entry that identify the student. *)
Definition identity (entry : string * Main.info)
  : string * string * string * string :=
  (fst entry, Main.name (snd entry), Main.department (snd entry),
   Main.section (snd entry)).

(** The same fields of a row of the students table. *)
Definition listed (row : Main.student_row)
  : string * string * string * string :=
  (Main.col_roll_no row, Main.col_name row, Main.col_department row,
   Main.col_section row).

(** What the loop keeps true of every entry besides the bound on the
    attentive frames: the flag says whether a frame was counted, no
    recorded emotion is "unknown", and there are at most as many recorded
    emotions as counted frames. *)
Definition entry_ok (i : Main.info) : Prop :=
  (0 <= Main.frames_present i)%Z /\
  (Main.present i = true <-> (0 < Main.frames_present i)%Z) /\
  ~ In "unknown" (Main.dominant_emotions i) /\
  (Z.of_nat (List.length (Main.dominant_emotions i))
   <= Main.frames_present i)%Z.

(** What the loop of [identify_student] knows after the rows [seen], with
    the place of the best row: the rows before it are strictly farther, the
    rows after it are not closer. *)
Definition first_best (f : Main.face) (seen : list Main.student_row)
           (best_roll : option string) (best_distance : option Q) : Prop :=
  match best_distance with
  | None =>
      best_roll = None /\
      forall row d, In row seen -> ~ Says.compared f row d
  | Some best =>
      exists pre row post,
        seen = pre ++ row :: post /\
        best_roll = Some (Main.col_roll_no row) /\
        Says.compared f row best /\
        (forall row' d, In row' pre -> Says.compared f row' d ->
                        (best < d)%Q) /\
        (forall row' d, In row' post -> Says.compared f row' d ->
                        (best <= d)%Q)
  end.

End SessionTerms.

(** ** [dashboard_app.py]: the other pages *)

Module Pages.
Import PyStr.

Section Sorting.
Variable A : Type.
Variable before : A -> A -> bool.

(** Insert into a list ordered by [before]. *)
Fixpoint insert (a : A) (l : list A) : list A :=
  match l with
  | [] => [a]
  | b :: r => if before a b then a :: l else b :: insert a r
  end.

(** The list in the order of [before], as [sorted] and [sort_values] give
    it for a total order. *)
Definition sort (l : list A) : list A := fold_right insert [] l.

Variable same : A -> A -> bool.

(** [unique()] and [drop_duplicates()]: first occurrences, in order. *)
Fixpoint unique (l : list A) : list A :=
  match l with
  | [] => []
  | a :: r => a :: filter (fun b => negb (same a b)) (unique r)
  end.

End Sorting.

Arguments insert {A} before a l.
Arguments sort {A} before l.
Arguments unique {A} same l.

(** [sorted(l)] on strings: ascending by code points. *)
Definition sorted (l : list string) : list string := sort String.leb l.

(** A session: its date and its time. *)
Definition session : Type := (string * string)%type.

Definition same_session (a b : session) : bool :=
  String.eqb (fst a) (fst b) && String.eqb (snd a) (snd b).

(** [a] comes no later than [b] when sorting by date, then time, both
    descending. *)
Definition not_after (a b : session) : bool :=
  match String.compare (fst a) (fst b) with
  | Gt => true
  | Lt => false
  | Eq => String.leb (snd b) (snd a)
  end.

Record students_page := {
  students_shown : list Dashboard.student;
  departments : list string;
  sections : list string;
  selected_department : string;
  selected_section : string
}.

(** [students]: the table of students, filtered by the query arguments. *)
Definition students (args : PyDict.t string)
           (students_csv : option (list Dashboard.student)) : students_page :=
  let students_df := Dashboard.load_students students_csv in
  let department := strip (PyDict.get args "department" "") in
  let section := strip (PyDict.get args "section" "") in
  let filtered_df := students_df in
  let filtered_df :=
    if truthy department
    then filter (fun r => String.eqb (lower (Dashboard.department r))
                                     (lower department)) filtered_df
    else filtered_df in
  let filtered_df :=
    if truthy section
    then filter (fun r => String.eqb (lower (Dashboard.section r))
                                     (lower section)) filtered_df
    else filtered_df in
  let departments :=
    if negb (Dashboard.empty students_df)
    then sorted (unique String.eqb (map Dashboard.department students_df))
    else [] in
  let sections :=
    if negb (Dashboard.empty students_df)
    then sorted (unique String.eqb (map Dashboard.section students_df))
    else [] in
  {| students_shown := filtered_df;
     departments := departments;
     sections := sections;
     selected_department := department;
     selected_section := section |}.

(** [sessions]: every (date, time) of the reports once, latest first. *)
Definition sessions (class_report_csv : option (list Dashboard.report))
  : list session :=
  let reports_df := Dashboard.load_reports class_report_csv in
  if Dashboard.empty reports_df then []
  else
    sort not_after
         (unique same_session
                 (map (fun r => (Dashboard.Session_Date r,
                                 Dashboard.Session_Time r)) reports_df)).

(** The list of recent sessions on the home page: the first ten. *)
Definition recent_sessions (class_report_csv : option (list Dashboard.report))
  : list session :=
  let reports_df := Dashboard.load_reports class_report_csv in
  if negb (Dashboard.empty reports_df)
  then firstn 10
         (sort not_after
               (unique same_session
                       (map (fun r => (Dashboard.Session_Date r,
                                       Dashboard.Session_Time r))
                            reports_df)))
  else [].



End Pages.

(** ** Further vocabulary: the dashboard *)

Module PageTerms.
Import PyStr.

(** A line of students.csv as the pages show it: every cell without its
    surrounding blanks, and the file name of the image beside them. *)
Definition shown_student (line : Dashboard.student) : Dashboard.student :=
  {| Dashboard.roll_no := strip (Dashboard.roll_no line);
     Dashboard.name := strip (Dashboard.name line);
     Dashboard.department := strip (Dashboard.department line);
     Dashboard.section := strip (Dashboard.section line);
     Dashboard.image_path := strip (Dashboard.image_path line);
     Dashboard.email := strip (Dashboard.email line);
     Dashboard.phone := strip (Dashboard.phone line);
     Dashboard.image_file :=
       App.basename (strip (Dashboard.image_path line)) |}.

(** A line of class_report.csv as the pages show it: the text cells
    without their surrounding blanks, the two percentages as they are. *)
Definition shown_report (line : Dashboard.report) : Dashboard.report :=
  {| Dashboard.Roll_No := strip (Dashboard.Roll_No line);
     Dashboard.Name := strip (Dashboard.Name line);
     Dashboard.Department := strip (Dashboard.Department line);
     Dashboard.Section_ := strip (Dashboard.Section_ line);
     Dashboard.Session_Date := strip (Dashboard.Session_Date line);
     Dashboard.Session_Time := strip (Dashboard.Session_Time line);
     Dashboard.Status := strip (Dashboard.Status line);
     Dashboard.Pct_Time_Present := Dashboard.Pct_Time_Present line;
     Dashboard.Pct_Time_Attentive := Dashboard.Pct_Time_Attentive line;
     Dashboard.Dominant_Emotion := strip (Dashboard.Dominant_Emotion line) |}.

(** The line passes the filter [wanted] on the cell [cell_]: the filter is
    empty, or equals the cell up to case and surrounding blanks. *)
Definition passes (wanted cell_ : string) : bool :=
  negb (truthy wanted) || String.eqb (lower (strip cell_)) (lower wanted).

(** The session of a line of class_report.csv: its date and time, without
    their surrounding blanks. *)
Definition session_of (line : Dashboard.report) : Pages.session :=
  (strip (Dashboard.Session_Date line), strip (Dashboard.Session_Time line)).


End PageTerms.

(** * Properties *)

(** ** Strings and dictionaries *)

Section StringFacts.
Import PyStr.





Lemma truthy_false (s : string) : truthy s = false -> s = EmptyString.
Proof. destruct s; [reflexivity|discriminate]. Qed.

End StringFacts.

(** ** Registration: duplicates and phone numbers *)

(** C1, where the code departs from it.  The web form writes students.csv
    with [newline=""] and [check_existing] reads it back in text mode
    without it, so a roll number with a carriage return inside is stored as
    it is and read back with a line feed in its place.  The scan then does
    not find the roll number again: a second POST with the same roll number
    (and another email and phone) is accepted, and the file ends with two
    rows of that roll number. *)
Theorem duplicate_roll_accepted_after_cr :
  let first :=
    App.register (Sample.post Sample.cr_roll "9876543211") None in
  let second :=
    App.register (Sample.second_post Sample.cr_roll)
                 (App.students_csv first) in
  App.students_csv first
  = Some [App.CSV_HEADER;
          [Sample.cr_roll; "Ravi"; "ECE"; "B";
           ("students/" ++ Sample.cr_roll ++ ".png")%string;
           "ravi@example.com"; "9876543211"]] /\
  PyStr.strip (PyDict.get (App.form (Sample.second_post Sample.cr_roll))
                          "roll_no" "")
  = Sample.cr_roll /\
  App.flashed second
  = [("Registration successful! You are now registered.", "success")] /\
  App.students_csv second
  = Some [App.CSV_HEADER;
          [Sample.cr_roll; "Ravi"; "ECE"; "B";
           ("students/" ++ Sample.cr_roll ++ ".png")%string;
           "ravi@example.com"; "9876543211"];
          [Sample.cr_roll; "Mena"; "ECE"; "B";
           ("students/" ++ Sample.cr_roll ++ ".jpg")%string;
           "mena@example.com"; "9000000001"]].
Proof. repeat split; vm_compute; reflexivity. Qed.

Section PhoneFacts.
Import PyStr Says.

Lemma bad_phone_fails (p : string) :
  bad_phone p ->
  truthy p = false \/ negb (isdigit p) || negb (len p =? 10)%nat = true.
Proof.
  intros [->|[H|H]].
  - now left.
  - right. unfold isdigit. rewrite H, andb_false_r. reflexivity.
  - right. apply Nat.eqb_neq in H. rewrite H. apply orb_true_r.
Qed.

Lemma ensure_created (fs : option Csv.file) :
  App.ensure_students_csv fs = created_if_missing fs.
Proof. now destruct fs. Qed.

Lemma web_phone_rejected (req : App.request) (fs : option Csv.file) :
  App.method req = "POST" ->
  bad_phone (strip (PyDict.get (App.form req) "phone" "")) ->
  (exists msg, App.flashed (App.register req fs) = [(msg, "error")]) /\
  App.response (App.register req fs) = App.Redirect "register" /\
  App.students_csv (App.register req fs) = created_if_missing fs.
Proof.
  intros Hpost Hbad. apply bad_phone_fails in Hbad.
  unfold App.register. rewrite Hpost. simpl String.eqb. cbv iota.
  rewrite ensure_created.
  set (phone := strip (PyDict.get (App.form req) "phone" "")) in *.
  do 2 match goal with
       | |- context [if ?b then _ else _] =>
           destruct b;
           [simpl; split; [eexists; reflexivity|split; reflexivity]|]
       end.
  destruct (truthy phone) eqn:Hp; simpl negb; cbv iota;
    [|simpl; split; [eexists; reflexivity|split; reflexivity]].
  destruct Hbad as [Hbad|Hbad]; [discriminate|]. rewrite Hbad.
  simpl; split; [eexists; reflexivity|split; reflexivity].
Qed.

Lemma cli_phone_rejected (ans : RegisterStudent.answers)
      (cam : RegisterStudent.camera) (w : RegisterStudent.world) :
  bad_phone (strip (RegisterStudent.in_phone ans)) ->
  let cli := RegisterStudent.main ans cam w in
  (exists out msg, RegisterStudent.printed cli = out ++ [msg] /\
                   is_error_line msg = true) /\
  RegisterStudent.ended cli = true /\
  RegisterStudent.students_csv (RegisterStudent.final cli)
  = created_if_missing (RegisterStudent.students_csv w).
Proof.
  intros Hbad cli. subst cli. apply bad_phone_fails in Hbad.
  assert (Hd : negb (isdigit (strip (RegisterStudent.in_phone ans)))
               || negb (len (strip (RegisterStudent.in_phone ans)) =? 10)%nat
               = true).
  { destruct Hbad as [Hbad|Hbad]; [|exact Hbad].
    apply truthy_false in Hbad. rewrite Hbad. reflexivity. }
  unfold RegisterStudent.main.
  destruct (RegisterStudent.ensure_students_dir w) as [w1 out1] eqn:E1.
  assert (Hw1 : RegisterStudent.students_csv w1
                = RegisterStudent.students_csv w).
  { unfold RegisterStudent.ensure_students_dir in E1.
    destruct (negb (RegisterStudent.students_dir w));
      injection E1 as <- _; reflexivity. }
  destruct (RegisterStudent.ensure_students_csv w1) as [w2 out2] eqn:E2.
  assert (Hw2 : RegisterStudent.students_csv w2
                = created_if_missing (RegisterStudent.students_csv w)).
  { unfold RegisterStudent.ensure_students_csv in E2. rewrite <- Hw1.
    destruct (RegisterStudent.students_csv w1) eqn:E;
      injection E2 as <- _; simpl; [exact E|reflexivity]. }
  rewrite Hd.
  do 2 match goal with
       | |- context [if ?b then _ else _] =>
           destruct b;
           [simpl; split;
            [eexists; eexists; split; reflexivity
            |split; [reflexivity|exact Hw2]]|]
       end.
  simpl; split; [eexists; eexists; split; reflexivity
                |split; [reflexivity|exact Hw2]].
Qed.

End PhoneFacts.

(** C8, as amended.  Both registration paths look at the phone number with
    its surrounding blanks removed.  When that string is empty, has a
    character that [str.isdigit] rejects, or is not 10 characters long, the
    web form flashes exactly one message, of category "error", the console
    script prints an error line last and stops, and in both no row is
    appended: students.csv is as it was, or holds only its header when it
    did not exist. *)
Theorem bad_phone_rejected
        (req : App.request) (fs : option Csv.file)
        (ans : RegisterStudent.answers) (cam : RegisterStudent.camera)
        (w : RegisterStudent.world) :
  App.method req = "POST" ->
  Says.bad_phone (PyStr.strip (PyDict.get (App.form req) "phone" "")) ->
  Says.bad_phone (PyStr.strip (RegisterStudent.in_phone ans)) ->
  let web := App.register req fs in
  let cli := RegisterStudent.main ans cam w in
  ((exists msg, App.flashed web = [(msg, "error")]) /\
   App.response web = App.Redirect "register" /\
   App.students_csv web = Says.created_if_missing fs) /\
  ((exists out msg, RegisterStudent.printed cli = out ++ [msg] /\
                    Says.is_error_line msg = true) /\
   RegisterStudent.ended cli = true /\
   RegisterStudent.students_csv (RegisterStudent.final cli)
   = Says.created_if_missing (RegisterStudent.students_csv w)).
Proof.
  intros Hpost Hweb Hcli web cli. split.
  - now apply web_phone_rejected.
  - now apply cli_phone_rejected.
Qed.

Lemma bad_phone_rejected_witness :
  App.students_csv (App.register (Sample.post "13" "98765x3211")
                                 (Some Sample.students_csv))
  = Some Sample.students_csv.
Proof.
  refine (proj2 (proj2 (proj1
    (bad_phone_rejected (Sample.post "13" "98765x3211")
       (Some Sample.students_csv) (Sample.typed "13" "12345")
       Sample.webcam (Sample.disk None) eq_refl _ _)))).
  - right; left. reflexivity.
  - right; right. simpl. discriminate.
Defined.

(** C8 as stated fails in three ways.  A phone field of 11 characters, a
    blank and ten digits, is accepted and its row appended; so is one of ten
    superscript digits; and a rejected phone number still creates
    students.csv when the file was missing. *)
Lemma phone_claim_counterexample :
  (PyStr.len " 9876543211" = 11 /\
   App.flashed (App.register (Sample.post "13" " 9876543211")
                             (Some Sample.students_csv))
   = [("Registration successful! You are now registered.", "success")] /\
   App.students_csv (App.register (Sample.post "13" " 9876543211")
                                  (Some Sample.students_csv))
   = Some (Sample.students_csv ++
           [["13"; "Ravi"; "ECE"; "B"; "students/13.png";
             "ravi@example.com"; "9876543211"]])) /\
  (PyStr.all_chars PyStr.isdecimal_char Sample.superscript_phone = false /\
   App.students_csv (App.register (Sample.post "13" Sample.superscript_phone)
                                  (Some Sample.students_csv))
   = Some (Sample.students_csv ++
           [["13"; "Ravi"; "ECE"; "B"; "students/13.png";
             "ravi@example.com"; Sample.superscript_phone]])) /\
  (App.flashed (App.register (Sample.post "13" "abc") None)
   = [("Phone number must contain exactly 10 digits.", "error")] /\
   App.students_csv (App.register (Sample.post "13" "abc") None)
   = Some [App.CSV_HEADER] /\
   RegisterStudent.students_csv
     (RegisterStudent.final
        (RegisterStudent.main (Sample.typed "13" "abc") Sample.webcam
                              (Sample.disk None)))
   = Some [RegisterStudent.CSV_HEADER]).
Proof. repeat split; vm_compute; reflexivity. Qed.

(** ** Attention and identification *)

Lemma Qlt_bool_iff (a b : Q) : Py.Qlt_bool a b = true <-> (a < b)%Q.
Proof.
  unfold Py.Qlt_bool. rewrite negb_true_iff. split.
  - intros H. apply Qnot_le_lt. intros Hle.
    apply Qle_bool_iff in Hle. congruence.
  - intros H. destruct (Qle_bool b a) eqn:E; [|reflexivity].
    apply Qle_bool_iff in E. exfalso. exact (Qlt_not_le _ _ H E).
Qed.

Lemma Qlt_bool_false_iff (a b : Q) : Py.Qlt_bool a b = false <-> (b <= a)%Q.
Proof.
  unfold Py.Qlt_bool. rewrite negb_false_iff. apply Qle_bool_iff.
Qed.

Lemma within_quarter_iff (a center size : Z) :
  Says.within_quarter a center size <->
  (inject_Z (Z.abs (a - center)) < inject_Z size * (1 # 4))%Q.
Proof.
  unfold Says.within_quarter, Qlt. simpl. lia.
Qed.

(** C6.  The status depends on the box and the frame size only, and it is
    "Attentive" exactly when the centre of the box, (x + w//2, y + h//2),
    is strictly within 25% of the frame width of frame_width//2 and
    strictly within 25% of the frame height of frame_height//2; otherwise
    it is "Not attentive". *)
Theorem attention_by_position (x y w h frame_width frame_height : Z) :
  let status :=
    fst (Main.estimate_attention_status x y w h frame_width frame_height) in
  (status = "Attentive" <->
   Says.within_quarter (x + w / 2) (frame_width / 2) frame_width /\
   Says.within_quarter (y + h / 2) (frame_height / 2) frame_height) /\
  (status <> "Attentive" -> status = "Not attentive").
Proof.
  intros status. subst status. unfold Main.estimate_attention_status.
  rewrite !within_quarter_iff.
  pose proof (Qlt_bool_iff
                (inject_Z (Z.abs (x + w / 2 - frame_width / 2)))
                (inject_Z frame_width * (1 # 4))) as Hx.
  pose proof (Qlt_bool_iff
                (inject_Z (Z.abs (y + h / 2 - frame_height / 2)))
                (inject_Z frame_height * (1 # 4))) as Hy.
  destruct (Py.Qlt_bool (inject_Z (Z.abs (x + w / 2 - frame_width / 2))) _);
    destruct (Py.Qlt_bool (inject_Z (Z.abs (y + h / 2 - frame_height / 2))) _);
    simpl; split;
    try reflexivity; try (intros H; now elim H);
    (split; [intros E; try discriminate E; tauto|]);
    intros [Ax Ay]; try reflexivity;
    try (apply Hx in Ax; discriminate Ax);
    apply Hy in Ay; discriminate Ay.
Qed.

Section IdentifyFacts.
Import Main Says.

Variable f : face.

Lemma identify_loop_best (n : Z) (rows : list student_row) :
  forall seen best_roll best_distance calls,
    best_so_far f seen best_roll best_distance ->
    let '(r, d, _) :=
      identify_loop n f rows best_roll best_distance calls in
    best_so_far f (seen ++ rows) r d.
Proof.
  induction rows as [|row rest IH]; intros seen br bd calls Inv.
  - simpl. now rewrite app_nil_r.
  - assert (Keep : (forall d, ~ compared f row d) ->
                   best_so_far f (seen ++ [row]) br bd).
    { intros No. unfold best_so_far in *. destruct bd as [best|].
      - destruct Inv as [(r0 & Hin & Hr & Hc) Hmin]. split.
        + exists r0. split; [apply in_or_app; now left|now split].
        + intros r1 d [H|[<-|[]]]%in_app_or Hc1; [now apply (Hmin r1)|].
          now elim (No d).
      - destruct Inv as [-> Hno]. split; [reflexivity|].
        intros r1 d [H|[<-|[]]]%in_app_or; [now apply Hno|apply No]. }
    replace (seen ++ row :: rest) with ((seen ++ [row]) ++ rest)
      by (rewrite <- app_assoc; reflexivity).
    simpl.
    destruct (path_exists f (col_image_path row)) eqn:Ex; simpl negb;
      cbv iota.
    2:{ apply IH, Keep. intros d [H _]. congruence. }
    destruct (verify f (col_image_path row)) as [|[distance|]] eqn:Ev.
    1,3: apply IH, Keep; intros d [_ H]; congruence.
    assert (Hrow : compared f row distance) by now split.
    assert (Uniq : forall d, compared f row d -> d = distance).
    { intros d [_ H]. congruence. }
    destruct bd as [best|].
    + destruct (Py.Qlt_bool distance best) eqn:Elt.
      * apply IH. apply Qlt_bool_iff in Elt.
        destruct Inv as [_ Hmin]. split.
        -- exists row. split; [apply in_or_app; right; now left|now split].
        -- intros r1 d [H|[<-|[]]]%in_app_or Hc1.
           ++ apply Qle_trans with best; [now apply Qlt_le_weak|].
              now apply (Hmin r1).
           ++ rewrite (Uniq d Hc1). apply Qle_refl.
      * apply IH. apply Qlt_bool_false_iff in Elt.
        destruct Inv as [(r0 & Hin & Hr & Hc) Hmin]. split.
        -- exists r0. split; [apply in_or_app; now left|now split].
        -- intros r1 d [H|[<-|[]]]%in_app_or Hc1; [now apply (Hmin r1)|].
           now rewrite (Uniq d Hc1).
    + apply IH. destruct Inv as [_ Hno]. split.
      * exists row. split; [apply in_or_app; right; now left|now split].
      * intros r1 d [H|[<-|[]]]%in_app_or Hc1; [now elim (Hno r1 d)|].
        rewrite (Uniq d Hc1). apply Qle_refl.
Qed.

Lemma identify_loop_result_calls (n m : Z) (rows : list student_row) :
  forall best_roll best_distance calls calls',
    fst (identify_loop n f rows best_roll best_distance calls) =
    fst (identify_loop m f rows best_roll best_distance calls').
Proof.
  induction rows as [|row rest IH]; intros br bd calls calls';
    [reflexivity|].
  simpl. destruct (path_exists f (col_image_path row)); simpl negb;
    cbv iota; [|apply IH].
  destruct (verify f (col_image_path row)) as [|[distance|]];
    try apply IH.
  destruct (match bd with Some best => Py.Qlt_bool distance best
                     | None => true end); apply IH.
Qed.

Lemma identify_student_best (rows : list student_row) :
  exists r d calls,
    identify_loop 0 f rows None None [] = (r, d, calls) /\
    best_so_far f rows r d /\
    identify_student f rows =
    match d with
    | Some best => if Py.Qlt_bool best FACE_MATCH_THRESHOLD then r else None
    | None => None
    end.
Proof.
  pose proof (identify_loop_best 0 rows [] None None []) as H.
  unfold identify_student, identify_student_traced.
  destruct (identify_loop 0 f rows None None []) as [[r d] calls].
  exists r, d, calls. split; [reflexivity|]. split.
  - apply H. simpl. split; [reflexivity|]. intros ? ? [].
  - destruct d as [best|]; [|reflexivity].
    now destruct (Py.Qlt_bool best FACE_MATCH_THRESHOLD).
Qed.

End IdentifyFacts.

(** C10.  [identify_student] answers a roll number only for a row whose
    comparison succeeded with a distance strictly below
    [FACE_MATCH_THRESHOLD] that no other successful comparison undercuts.
    It answers [None] when every successful comparison is at or above the
    threshold, which is the case when no image file exists and when every
    call raises or gives no distance.  It does answer a roll number as soon
    as one comparison succeeds below the threshold. *)
Theorem identify_student_minimal (f : Main.face)
        (students_df : list Main.student_row) :
  (forall r, Main.identify_student f students_df = Some r ->
     exists row d,
       In row students_df /\ Main.col_roll_no row = r /\
       Says.compared f row d /\ (d < Main.FACE_MATCH_THRESHOLD)%Q /\
       forall row' d', In row' students_df -> Says.compared f row' d' ->
                       (d <= d')%Q) /\
  ((forall row d, In row students_df -> Says.compared f row d ->
                  (Main.FACE_MATCH_THRESHOLD <= d)%Q) ->
   Main.identify_student f students_df = None) /\
  ((forall row, In row students_df ->
                Main.path_exists f (Main.col_image_path row) = false) ->
   Main.identify_student f students_df = None) /\
  ((forall row, In row students_df ->
                Main.verify f (Main.col_image_path row) = Main.VerifyRaises \/
                Main.verify f (Main.col_image_path row)
                = Main.VerifyDict None) ->
   Main.identify_student f students_df = None) /\
  ((exists row d, In row students_df /\ Says.compared f row d /\
                  (d < Main.FACE_MATCH_THRESHOLD)%Q) ->
   exists r, Main.identify_student f students_df = Some r).
Proof.
  destruct (identify_student_best f students_df)
    as (r & d & calls & _ & Inv & Res).
  assert (Above : (forall row d, In row students_df ->
                                 Says.compared f row d ->
                                 (Main.FACE_MATCH_THRESHOLD <= d)%Q) ->
                  Main.identify_student f students_df = None).
  { intros Hall. rewrite Res. destruct d as [best|]; [|reflexivity].
    destruct Inv as [(row & Hin & _ & Hc) _].
    apply (Hall row best Hin) in Hc. apply Qlt_bool_false_iff in Hc.
    now rewrite Hc. }
  split; [|split; [exact Above|split; [|split]]].
  - intros r0 Hr0. rewrite Res in Hr0. destruct d as [best|]; [|discriminate].
    destruct (Py.Qlt_bool best Main.FACE_MATCH_THRESHOLD) eqn:Elt;
      [|discriminate].
    apply Qlt_bool_iff in Elt. destruct Inv as [(row & Hin & Hr & Hc) Hmin].
    exists row, best. repeat split; trivial; try apply Hc.
    congruence.
  - intros Hno. apply Above. intros row d1 Hin [He _].
    rewrite (Hno row Hin) in He. discriminate.
  - intros Hfail. apply Above. intros row d1 Hin [_ Hv].
    destruct (Hfail row Hin) as [E|E]; rewrite E in Hv; discriminate.
  - intros (row & d0 & Hin & Hc & Hlt). rewrite Res.
    destruct d as [best|].
    + destruct Inv as [(row0 & _ & Hr & _) Hmin].
      assert (Hb : (best < Main.FACE_MATCH_THRESHOLD)%Q).
      { apply Qle_lt_trans with d0; [now apply (Hmin row)|exact Hlt]. }
      apply Qlt_bool_iff in Hb. rewrite Hb, Hr. eauto.
    + destruct Inv as [_ Hno]. now elim (Hno row d0 Hin).
Qed.

Lemma identify_student_minimal_witness :
  Main.identify_student Sample.a_face Sample.students_df = Some "13" /\
  exists row d,
    In row Sample.students_df /\ Main.col_roll_no row = "13" /\
    Says.compared Sample.a_face row d /\
    (d < Main.FACE_MATCH_THRESHOLD)%Q /\
    forall row' d', In row' Sample.students_df ->
                    Says.compared Sample.a_face row' d' -> (d <= d')%Q.
Proof.
  split; [reflexivity|].
  exact (proj1 (identify_student_minimal Sample.a_face Sample.students_df)
               "13" eq_refl).
Defined.

(** ** The dashboard *)

Lemma filter_and {A} (p q : A -> bool) (l : list A) :
  filter q (filter p l) = filter (fun a => p a && q a) l.
Proof.
  induction l as [|a l IH]; simpl; [reflexivity|].
  destruct (p a); simpl; [destruct (q a)|]; rewrite IH; reflexivity.
Qed.

Lemma filter_nil_existsb {A} (p : A -> bool) (l : list A) :
  filter p l = [] <-> existsb p l = false.
Proof.
  induction l as [|a l IH]; simpl; [tauto|].
  destruct (p a); simpl; [split; discriminate|exact IH].
Qed.

Lemma filter_map {A B} (f : A -> B) (p : B -> bool) (l : list A) :
  filter p (map f l) = map f (filter (fun a => p (f a)) l).
Proof.
  induction l as [|a l IH]; simpl; [reflexivity|].
  destruct (p (f a)); simpl; now rewrite IH.
Qed.

Lemma load_reports_rows (fs : option (list Dashboard.report)) :
  Dashboard.load_reports fs = map PageTerms.shown_report (Says.rows_of fs).
Proof. now destruct fs. Qed.

Lemma load_students_rows (fs : option (list Dashboard.student)) :
  Dashboard.load_students fs = map PageTerms.shown_student (Says.rows_of fs).
Proof. now destruct fs. Qed.

(** C7.  On the home page [total_students] is the number of data lines of
    students.csv and [present_count] the number of lines of
    class_report.csv whose Session Date is today and whose Status is
    "Present".  When a line of today exists, [absent_count] is the number
    of lines of today with Status "Absent"; when none exists,
    [present_count] is 0 and [absent_count] is [total_students].  Dates and
    statuses are compared without their surrounding blanks; a missing file
    has no lines. *)
Theorem home_counts (today : string)
        (students_csv : option (list Dashboard.student))
        (class_report_csv : option (list Dashboard.report)) :
  let page := Dashboard.home today students_csv class_report_csv in
  let lines := Says.rows_of class_report_csv in
  Dashboard.total_students page = List.length (Says.rows_of students_csv) /\
  Dashboard.present_count page = Says.rows_on today "Present" lines /\
  (Says.reported_on today lines = true ->
   Dashboard.absent_count page = Says.rows_on today "Absent" lines) /\
  (Says.reported_on today lines = false ->
   Dashboard.present_count page = 0 /\
   Dashboard.absent_count page = Dashboard.total_students page).
Proof.
  intros page lines. subst page. unfold Dashboard.home.
  rewrite load_reports_rows, load_students_rows. fold lines.
  rewrite length_map.
  unfold Says.rows_on, Says.reported_on, Dashboard.count_eq.
  set (on_today := fun r => String.eqb (Dashboard.Session_Date r) today).
  assert (Todays :
            (if negb (Dashboard.empty (map PageTerms.shown_report lines))
             then filter on_today (map PageTerms.shown_report lines)
             else [])
            = map PageTerms.shown_report
                  (filter (fun r => String.eqb
                                      (PyStr.strip (Dashboard.Session_Date r))
                                      today) lines)).
  { rewrite filter_map. now destruct lines. }
  rewrite Todays. rewrite !filter_map, !length_map, !filter_and.
  cbn [PageTerms.shown_report Dashboard.Status].
  destruct (filter (fun r => String.eqb
                               (PyStr.strip (Dashboard.Session_Date r)) today)
                   lines) as [|r rest] eqn:E.
  - pose proof E as E'. apply filter_nil_existsb in E'. rewrite E'.
    rewrite <- !filter_and, E. simpl.
    split; [reflexivity|]. split; [reflexivity|]. split; [discriminate|].
    split; reflexivity.
  - assert (Ex : existsb (fun r => String.eqb
                                     (PyStr.strip (Dashboard.Session_Date r))
                                     today) lines = true).
    { destruct (existsb _ lines) eqn:Eb; [reflexivity|].
      apply filter_nil_existsb in Eb. congruence. }
    rewrite Ex. cbn [map Dashboard.empty negb].
    split; [reflexivity|]. split; [reflexivity|]. split; [reflexivity|].
    discriminate.
Qed.

(** ** Dictionaries *)

Section DictFacts.
Context {V : Type}.
Implicit Types (d : PyDict.t V) (k : string) (v : V).

Lemma lookup_set_same d k v : PyDict.lookup (PyDict.set d k v) k = Some v.
Proof.
  induction d as [|[k' v'] d IH]; simpl.
  - now rewrite String.eqb_refl.
  - destruct (String.eqb k' k) eqn:E; simpl; rewrite E; [reflexivity|exact IH].
Qed.

Lemma lookup_set_other d k k' v :
  k' <> k -> PyDict.lookup (PyDict.set d k v) k' = PyDict.lookup d k'.
Proof.
  intros Hne. induction d as [|[k0 v0] d IH]; simpl.
  - destruct (String.eqb k k') eqn:E; [|reflexivity].
    apply String.eqb_eq in E. congruence.
  - destruct (String.eqb k0 k) eqn:E; simpl.
    + apply String.eqb_eq in E. subst k0.
      destruct (String.eqb k k') eqn:E'; [|reflexivity].
      apply String.eqb_eq in E'. congruence.
    + now rewrite IH.
Qed.

Lemma lookup_in d k v : PyDict.lookup d k = Some v -> In (k, v) d.
Proof.
  induction d as [|[k' v'] d IH]; simpl; [discriminate|].
  destruct (String.eqb k' k) eqn:E.
  - apply String.eqb_eq in E. intros [= ->]. subst. now left.
  - intros H. right. now apply IH.
Qed.

Lemma lookup_none d k : PyDict.lookup d k = None <-> ~ In k (PyDict.keys d).
Proof.
  induction d as [|[k' v'] d IH]; simpl; [tauto|].
  destruct (String.eqb k' k) eqn:E.
  - apply String.eqb_eq in E. split; [discriminate|]. intros H. elim H. now left.
  - apply String.eqb_neq in E. rewrite IH. tauto.
Qed.

Lemma in_lookup d k v :
  NoDup (PyDict.keys d) -> In (k, v) d -> PyDict.lookup d k = Some v.
Proof.
  induction d as [|[k' v'] d IH]; simpl; [contradiction|].
  intros Hnd [H|H].
  - injection H as -> ->. now rewrite String.eqb_refl.
  - inversion Hnd as [|? ? Hnot Hnd']; subst.
    destruct (String.eqb k' k) eqn:E; [|now apply IH].
    apply String.eqb_eq in E. subst k'. elim Hnot.
    change k with (fst (k, v)). now apply in_map.
Qed.

Lemma keys_set d k v :
  PyDict.keys (PyDict.set d k v) =
  if PyDict.mem k d then PyDict.keys d else PyDict.keys d ++ [k].
Proof.
  unfold PyDict.mem. induction d as [|[k' v'] d IH]; simpl; [reflexivity|].
  destruct (String.eqb k' k) eqn:E; simpl; [reflexivity|].
  rewrite IH. now destruct (PyDict.lookup d k).
Qed.

Lemma keys_set_present d k v v0 :
  PyDict.lookup d k = Some v0 -> PyDict.keys (PyDict.set d k v) = PyDict.keys d.
Proof. intros H. rewrite keys_set. unfold PyDict.mem. now rewrite H. Qed.

Lemma NoDup_keys_set d k v :
  NoDup (PyDict.keys d) -> NoDup (PyDict.keys (PyDict.set d k v)).
Proof.
  intros Hnd. rewrite keys_set. unfold PyDict.mem.
  destruct (PyDict.lookup d k) eqn:E; [exact Hnd|].
  apply lookup_none in E. apply NoDup_app; [exact Hnd| |].
  - constructor; [intros []|constructor].
  - intros a Ha [<-|[]]. contradiction.
Qed.

Lemma in_keys_set d k v k' :
  In k' (PyDict.keys (PyDict.set d k v)) <-> In k' (PyDict.keys d) \/ k' = k.
Proof.
  rewrite keys_set. unfold PyDict.mem.
  destruct (PyDict.lookup d k) eqn:E.
  - split; [tauto|]. intros [H| ->]; [exact H|].
    apply lookup_in in E. change k with (fst (k, v0)). now apply in_map.
  - rewrite in_app_iff. simpl. intuition congruence.
Qed.

End DictFacts.

(** ** The attendance dictionary through a session *)

Section AttendanceFacts.
Import Main.

Lemma init_keys_gen (rows : list student_row) (mk : student_row -> info) :
  forall acc : PyDict.t info,
    NoDup (PyDict.keys acc) ->
    let d := fold_left (fun a row => PyDict.set a (col_roll_no row) (mk row))
                       rows acc in
    NoDup (PyDict.keys d) /\
    forall k, In k (PyDict.keys d) <->
              In k (PyDict.keys acc) \/ In k (map col_roll_no rows).
Proof.
  induction rows as [|row rest IH]; intros acc Hnd; simpl.
  - split; [exact Hnd|]. tauto.
  - destruct (IH (PyDict.set acc (col_roll_no row) (mk row))
                 (NoDup_keys_set _ _ _ Hnd)) as [H1 H2].
    split; [exact H1|]. intros k. rewrite H2, in_keys_set.
    intuition congruence.
Qed.

Lemma init_keys (students_df : list student_row) :
  NoDup (PyDict.keys (init_attendance_dict students_df)) /\
  forall k, In k (PyDict.keys (init_attendance_dict students_df)) <->
            In k (map col_roll_no students_df).
Proof.
  destruct (init_keys_gen students_df
              (fun row => {| name := col_name row;
                             department := col_department row;
                             section := col_section row;
                             email := col_email row;
                             phone := col_phone row;
                             present := false;
                             frames_present := 0;
                             frames_attentive := 0;
                             dominant_emotions := [] |})
              [] (NoDup_nil _)) as [H1 H2].
  split; [exact H1|]. intros k. rewrite (H2 k). simpl. tauto.
Qed.

Lemma process_face_keys students_df do_heavy w h st f :
  PyDict.keys (attendance (process_face students_df do_heavy w h st f))
  = PyDict.keys (attendance st).
Proof.
  unfold process_face. destruct do_heavy; [|reflexivity].
  destruct (estimate_attention_status _ _ _ _ _ _) as [status c].
  destruct (identify_student_traced _ _ _) as [[r|] vc]; [|reflexivity].
  destruct (PyDict.lookup (attendance st) r) eqn:E; [|reflexivity].
  simpl. now apply keys_set_present with i.
Qed.

Lemma process_faces_keys students_df do_heavy w h fs :
  forall st,
    PyDict.keys (attendance
                   (fold_left (process_face students_df do_heavy w h) fs st))
    = PyDict.keys (attendance st).
Proof.
  induction fs as [|f fs IH]; intros st; simpl; [reflexivity|].
  rewrite IH. apply process_face_keys.
Qed.

Lemma process_frame_keys students_df st fr :
  PyDict.keys (attendance (process_frame students_df st fr))
  = PyDict.keys (attendance st).
Proof. unfold process_frame. now rewrite process_faces_keys. Qed.

Lemma session_loop_keys students_df turns :
  forall st,
    PyDict.keys (attendance (fst (session_loop students_df turns st)))
    = PyDict.keys (attendance st).
Proof.
  induction turns as [|fr rest IH]; intros st; simpl; [reflexivity|].
  destruct (ret fr); simpl; [|reflexivity].
  destruct (Z.land (waitKey fr) 255 =? 113)%Z; simpl.
  - apply process_frame_keys.
  - rewrite IH. apply process_frame_keys.
Qed.

Lemma Counter_nonempty (e : string) (l : list string) : Counter (e :: l) <> [].
Proof.
  unfold Counter. simpl.
  assert (G : forall l (acc : PyDict.t Z),
             acc <> [] ->
             fold_left (fun c e => PyDict.set c e (PyDict.get c e 0 + 1)%Z)
                       l acc <> []).
  { clear. induction l as [|a l IH]; intros acc Hacc; simpl; [exact Hacc|].
    apply IH. destruct acc as [|[k v] acc]; [congruence|].
    simpl. destruct (String.eqb k a); discriminate. }
  apply G. discriminate.
Qed.

End AttendanceFacts.

Section ReportFacts.
Import Main.
Context {F : Type} `{PyFloat F}.

(** The row of a student comes out whatever the counters are: neither
    division can fail, and [most_common(1)] is asked only about a non-empty
    list. *)
Lemma report_row_of_total roll_no (i : info) total date time :
  exists row : report_row,
    report_row_of roll_no i total date time = inr row /\
    Roll_No row = roll_no /\ Session_Date row = date /\
    Session_Time row = time.
Proof.
  unfold report_row_of.
  destruct (frames_present i =? 0)%Z eqn:E0.
  - eexists. split; [reflexivity|]. simpl. tauto.
  - unfold Py.truediv. rewrite E0.
    assert (Hm : (Z.max total 1 =? 0)%Z = false) by (apply Z.eqb_neq; lia).
    rewrite Hm. cbn [Py.bind Py.ret].
    destruct (dominant_emotions i) as [|e l] eqn:El.
    + eexists. split; [reflexivity|]. simpl. tauto.
    + pose proof (Counter_nonempty e l) as Hc.
      destruct (Counter (e :: l)) as [|it rest]; [congruence|].
      eexists. split; [reflexivity|]. simpl. tauto.
Qed.

Lemma report_rows_total (items : list (string * info)) total date time :
  exists rows : list report_row,
    report_rows items total date time = inr rows /\
    map Roll_No rows = map fst items /\
    Forall2 (fun item row =>
               report_row_of (fst item) (snd item) total date time = inr row)
            items rows /\
    forall row, In row rows ->
                Session_Date row = date /\ Session_Time row = time.
Proof.
  induction items as [|[k i] rest (rows & E & Hk & Hf & Hd)]; simpl.
  - exists []. split; [reflexivity|]. split; [reflexivity|].
    split; [constructor|]. intros row [].
  - destruct (report_row_of_total k i total date time)
      as (row & Er & Hr & Hdt).
    rewrite Er, E. cbn [Py.bind Py.ret]. exists (row :: rows).
    split; [reflexivity|]. split; [simpl; congruence|].
    split; [constructor; [exact Er|exact Hf]|].
    intros row' [<-|Hin]; [exact Hdt|now apply Hd].
Qed.

End ReportFacts.

(** C2.  Whatever the camera showed during the session, the report of the
    attendance dictionary built from a students table has exactly one row
    per key of the dictionary, in the order of the keys; the keys are the
    roll numbers of the table, each once; every row carries the date and
    time of the session; so no (roll number, date, time) occurs twice, and
    students never seen are included. *)
Theorem one_row_per_student {F : Type} `{PyFloat F}
        (students_df : list Main.student_row) (turns : list Main.frame)
        (total_frames : Z) (session_date session_time : string) :
  let attendance :=
    Main.attendance
      (fst (Main.session_loop students_df turns (Main.start students_df))) in
  exists rows : list Main.report_row,
    Main.compute_session_report attendance total_frames
                                session_date session_time = inr rows /\
    map Main.Roll_No rows = PyDict.keys attendance /\
    PyDict.keys attendance
    = PyDict.keys (Main.init_attendance_dict students_df) /\
    NoDup (map (fun r => (Main.Roll_No r, Main.Session_Date r,
                          Main.Session_Time r)) rows) /\
    (forall r, In r rows ->
               Main.Session_Date r = session_date /\
               Main.Session_Time r = session_time) /\
    (forall roll_no,
        In roll_no (map Main.col_roll_no students_df) <->
        In roll_no (map Main.Roll_No rows)).
Proof.
  intros attendance.
  assert (Keys : PyDict.keys attendance
                 = PyDict.keys (Main.init_attendance_dict students_df)).
  { subst attendance. now rewrite session_loop_keys. }
  destruct (init_keys students_df) as [Hnd Hin].
  destruct (report_rows_total attendance total_frames session_date
                              session_time) as (rows & E & Hk & _ & Hd).
  exists rows. split; [exact E|]. split; [exact Hk|]. split; [exact Keys|].
  split; [|split; [exact Hd|]].
  - apply NoDup_map_inv with (f := fun t : string * string * string =>
                                     fst (fst t)).
    rewrite map_map. simpl.
    change (NoDup (map Main.Roll_No rows)).
    rewrite Hk. unfold PyDict.keys in Keys. rewrite Keys. exact Hnd.
  - intros roll_no. rewrite Hk. unfold PyDict.keys in Keys. rewrite Keys.
    symmetry. apply Hin.
Qed.

(** ** The exact instance satisfies the laws *)

Lemma Qred_le (x y : Q) : (x <= y)%Q -> (Qred x <= Qred y)%Q.
Proof. intros H. now rewrite !Qred_correct. Qed.

#[global] Instance QFloat_laws : PyFloatLaws Q.
Proof.
  constructor; simpl.
  - reflexivity.
  - discriminate.
  - intros x y z. apply Qle_trans.
  - intros a b c Hab Hc. unfold QFloat.div. apply Qred_le.
    unfold Qdiv. apply Qmult_le_compat_r.
    + rewrite <- Zle_Qle. exact Hab.
    + apply Qlt_le_weak, Qinv_lt_0_compat.
      change 0%Q with (inject_Z 0). rewrite <- Zlt_Qlt. exact Hc.
  - intros c Hc. unfold QFloat.div. rewrite Qred_correct.
    unfold Qdiv. rewrite Qmult_inv_r; [apply Qle_refl|].
    intros E. unfold Qeq in E. simpl in E. lia.
  - intros x y Hxy. unfold QFloat.mul. apply Qred_le.
    apply Qmult_le_compat_r; [exact Hxy|discriminate].
  - discriminate.
  - intros x y Hxy. unfold QFloat.round_2. apply Qred_le.
    assert (Hf : (Qfloor (x * inject_Z 100 + (1 # 2))
                  <= Qfloor (y * inject_Z 100 + (1 # 2)))%Z).
    { apply Qfloor_resp_le. apply Qplus_le_l.
      apply Qmult_le_compat_r; [exact Hxy|discriminate]. }
    unfold Qle. cbn [Qnum Qden]. lia.
  - discriminate.
Qed.

(** ** The most frequent emotion *)

Section CounterFacts.
Import Main.

Let step (c : PyDict.t Z) (e : string) : PyDict.t Z :=
  PyDict.set c e (PyDict.get c e 0 + 1)%Z.

Lemma get_set (d : PyDict.t Z) (k k' : string) (v : Z) :
  PyDict.get (PyDict.set d k v) k' 0%Z
  = if String.eqb k k' then v else PyDict.get d k' 0%Z.
Proof.
  unfold PyDict.get. destruct (String.eqb k k') eqn:E.
  - apply String.eqb_eq in E. subst. now rewrite lookup_set_same.
  - apply String.eqb_neq in E. rewrite lookup_set_other; congruence.
Qed.

Lemma counter_gen (l : list string) :
  forall acc : PyDict.t Z,
    NoDup (PyDict.keys acc) ->
    let c := fold_left step l acc in
    NoDup (PyDict.keys c) /\
    (forall e, PyDict.get c e 0%Z
               = (PyDict.get acc e 0 + Z.of_nat (count_occ string_dec l e))%Z) /\
    (forall e, In e (PyDict.keys c) <-> In e (PyDict.keys acc) \/ In e l).
Proof.
  induction l as [|a l IH]; intros acc Hnd; simpl.
  - split; [exact Hnd|]. split; [intros; lia|tauto].
  - destruct (IH (step acc a) (NoDup_keys_set _ _ _ Hnd)) as (H1 & H2 & H3).
    split; [exact H1|]. split.
    + intros e. rewrite H2. unfold step. rewrite get_set.
      destruct (string_dec a e) as [->|Hne].
      * rewrite String.eqb_refl. lia.
      * apply String.eqb_neq in Hne. rewrite Hne. lia.
    + intros e. rewrite H3. unfold step. rewrite in_keys_set.
      intuition congruence.
Qed.

Lemma max_item_max (items : list (string * Z)) :
  forall best,
    In (max_item best items) (best :: items) /\
    forall it, In it (best :: items) ->
               (snd it <= snd (max_item best items))%Z.
Proof.
  induction items as [|it items IH]; intros best; simpl.
  - split; [now left|]. intros it [<-|[]]. lia.
  - destruct (snd best <? snd it)%Z eqn:E.
    + apply Z.ltb_lt in E. destruct (IH it) as [Hin Hmax]. split.
      * right. exact Hin.
      * intros it' [<-|Hin']; [|now apply Hmax].
        specialize (Hmax it (or_introl eq_refl)). lia.
    + apply Z.ltb_ge in E. destruct (IH best) as [Hin Hmax]. split.
      * destruct Hin as [Hin|Hin]; [now left|right; now right].
      * intros it' [<-|[<-|Hin']].
        -- apply Hmax. now left.
        -- specialize (Hmax best (or_introl eq_refl)). lia.
        -- apply Hmax. now right.
Qed.

Lemma dominant_most_frequent (e : string) (l : list string) :
  exists label,
    first_label (most_common_1 (Counter (e :: l))) = inr label /\
    Says.most_frequent label (e :: l).
Proof.
  destruct (counter_gen (e :: l) [] (NoDup_nil _)) as (Hnd & Hget & Hkeys).
  change (fold_left step (e :: l) []) with (Counter (e :: l))
    in Hnd, Hget, Hkeys.
  pose proof (Counter_nonempty e l) as Hne.
  destruct (Counter (e :: l)) as [|it rest] eqn:Ec; [congruence|].
  simpl most_common_1. simpl first_label.
  destruct (max_item_max rest it) as [Hin Hmax].
  destruct (max_item it rest) as [lbl cnt] eqn:Em. set (m := (lbl, cnt)) in *.
  exists (fst m). split; [reflexivity|].
  assert (Hm : snd m = Z.of_nat (count_occ string_dec (e :: l) (fst m))).
  { rewrite <- (Z.add_0_l (Z.of_nat _)).
    change 0%Z with (PyDict.get (@nil (string * Z)) (fst m) 0%Z) at 1.
    rewrite <- Hget. unfold PyDict.get.
    rewrite (in_lookup _ (fst m) (snd m) Hnd); [reflexivity|].
    exact Hin. }
  split.
  - destruct (proj1 (Hkeys (fst m))) as [[]|Hl]; [|exact Hl].
    unfold PyDict.keys. now apply in_map.
  - intros e'. destruct (in_dec string_dec e' (e :: l)) as [Hi|Hn].
    + assert (Hk : In e' (PyDict.keys (it :: rest))) by (apply Hkeys; now right).
      destruct (PyDict.lookup (it :: rest) e') as [v|] eqn:El;
        [|apply lookup_none in El; contradiction].
      pose proof (Hget e') as Hg. unfold PyDict.get in Hg at 1.
      rewrite El in Hg.
      change (v = (0 + Z.of_nat (count_occ string_dec (e :: l) e'))%Z) in Hg.
      apply lookup_in in El. apply Hmax in El. cbn [snd] in El.
      apply Nat2Z.inj_le. rewrite <- Hm. lia.
    + assert (Hz : count_occ string_dec (e :: l) e' = 0)
        by now apply count_occ_not_In.
      rewrite Hz. lia.
Qed.

End CounterFacts.

(** ** The rows of the report *)

Section RowFacts.
Import Main.
Context {F : Type} `{PyFloat F} `{!PyFloatLaws F}.

Lemma report_row_of_says roll_no (i : info) total date time (row : report_row) :
  report_row_of roll_no i total date time = inr row ->
  Roll_No row = roll_no /\
  ((Status row = "Absent" /\ Pct_Time_Present row = fzero /\
    Pct_Time_Attentive row = fzero /\ Dominant_Emotion row = "N/A")
   <-> frames_present i = 0%Z) /\
  (frames_present i <> 0%Z ->
   Status row = "Present" /\
   Pct_Time_Present row
   = round2 (fmul (true_div (frames_present i) (Z.max total 1)) fhundred) /\
   Pct_Time_Attentive row
   = round2 (fmul (true_div (frames_attentive i) (frames_present i))
                  fhundred) /\
   (dominant_emotions i = [] -> Dominant_Emotion row = "unknown") /\
   (dominant_emotions i <> [] ->
    Says.most_frequent (Dominant_Emotion row) (dominant_emotions i))).
Proof.
  unfold report_row_of.
  destruct (frames_present i =? 0)%Z eqn:E0.
  - apply Z.eqb_eq in E0. intros [= <-]. simpl. rewrite round2_zero.
    split; [reflexivity|]. split; [tauto|]. intros Hne. now elim Hne.
  - apply Z.eqb_neq in E0. unfold Py.truediv.
    rewrite (proj2 (Z.eqb_neq _ _) E0).
    assert (Hm : (Z.max total 1 =? 0)%Z = false) by (apply Z.eqb_neq; lia).
    rewrite Hm. cbn [Py.bind Py.ret].
    destruct (dominant_emotions i) as [|e l] eqn:El.
    + intros [= <-]. simpl. split; [reflexivity|]. split.
      * split; [intros [Hs _]; discriminate Hs|intros Hz; now elim E0].
      * intros _. do 3 (split; [reflexivity|]).
        split; [reflexivity|intros Hne; now elim Hne].
    + destruct (dominant_most_frequent e l) as (label & Ef & Hmf).
      rewrite Ef. cbn [Py.bind Py.ret]. intros [= <-]. simpl.
      split; [reflexivity|]. split.
      * split; [intros [Hs _]; discriminate Hs|intros Hz; now elim E0].
      * intros _. do 3 (split; [reflexivity|]).
        split; [discriminate|intros _; exact Hmf].
Qed.

End RowFacts.

(** C3.  The report has, for every entry of the attendance dictionary and
    in the same order, a row that is Status "Absent" with 0.0 for both
    percentages and "N/A" as emotion exactly when [frames_present] is 0.
    Otherwise the row is Status "Present", its "% Time Present (approx)" is
    [round(frames_present / max(total_frames, 1) * 100.0, 2)], its
    "% Time Attentive" is [round(frames_attentive / frames_present * 100.0,
    2)], and its emotion is "unknown" for an empty emotion list and else a
    label of the list that no other label outnumbers. *)
Theorem report_row_values {F : Type} `{PyFloat F} `{!PyFloatLaws F}
        (attendance : PyDict.t Main.info) (total_frames : Z)
        (session_date session_time : string) :
  exists rows : list Main.report_row,
    Main.compute_session_report attendance total_frames
                                session_date session_time = inr rows /\
    Forall2
      (fun item row =>
         let i := snd item in
         Main.Roll_No row = fst item /\
         ((Main.Status row = "Absent" /\
           Main.Pct_Time_Present row = fzero /\
           Main.Pct_Time_Attentive row = fzero /\
           Main.Dominant_Emotion row = "N/A")
          <-> Main.frames_present i = 0%Z) /\
         (Main.frames_present i <> 0%Z ->
          Main.Status row = "Present" /\
          Main.Pct_Time_Present row
          = round2 (fmul (true_div (Main.frames_present i)
                                   (Z.max total_frames 1)) fhundred) /\
          Main.Pct_Time_Attentive row
          = round2 (fmul (true_div (Main.frames_attentive i)
                                   (Main.frames_present i)) fhundred) /\
          (Main.dominant_emotions i = [] ->
           Main.Dominant_Emotion row = "unknown") /\
          (Main.dominant_emotions i <> [] ->
           Says.most_frequent (Main.Dominant_Emotion row)
                              (Main.dominant_emotions i))))
      attendance rows.
Proof.
  destruct (report_rows_total attendance total_frames session_date
                              session_time) as (rows & E & _ & Hf & _).
  exists rows. split; [exact E|].
  clear E.
  induction Hf as [|item row items rows' Hrow Hf IH]; constructor;
    [|exact IH].
  destruct item as [k i].
  now apply report_row_of_says with session_date session_time.
Qed.

Lemma report_row_values_witness :
  Main.compute_session_report Sample.attendance 30 "2025-03-01" "10:15:00"
  = inr [ {| Main.Roll_No := "12"; Main.Name := "Asha";
             Main.Department := "CSE"; Main.Section_ := "A";
             Main.Session_Date := "2025-03-01";
             Main.Session_Time := "10:15:00"; Main.Status := "Present";
             Main.Pct_Time_Present := (2667 # 100)%Q;
             Main.Pct_Time_Attentive := 75%Q;
             Main.Dominant_Emotion := "happy" |};
          {| Main.Roll_No := "13"; Main.Name := "Ravi";
             Main.Department := "CSE"; Main.Section_ := "A";
             Main.Session_Date := "2025-03-01";
             Main.Session_Time := "10:15:00"; Main.Status := "Absent";
             Main.Pct_Time_Present := 0%Q;
             Main.Pct_Time_Attentive := 0%Q;
             Main.Dominant_Emotion := "N/A" |};
          {| Main.Roll_No := "14"; Main.Name := "Mena";
             Main.Department := "CSE"; Main.Section_ := "A";
             Main.Session_Date := "2025-03-01";
             Main.Session_Time := "10:15:00"; Main.Status := "Present";
             Main.Pct_Time_Present := 10%Q;
             Main.Pct_Time_Attentive := 100%Q;
             Main.Dominant_Emotion := "unknown" |} ] /\
  exists rows : list Main.report_row,
    Main.compute_session_report Sample.attendance 30 "2025-03-01" "10:15:00"
    = inr rows /\ List.length rows = 3.
Proof.
  split; [vm_compute; reflexivity|].
  destruct (@report_row_values Q QFloat.ops QFloat_laws Sample.attendance 30
              "2025-03-01" "10:15:00") as (rows & E & Hf).
  exists rows. split; [exact E|].
  apply Forall2_length in Hf. now rewrite <- Hf.
Defined.

(** ** Attentive frames never outnumber present frames *)

Section CounterInvariant.
Import Main Says.

Lemma in_set {V} (d : PyDict.t V) k v k' v' :
  In (k', v') (PyDict.set d k v) -> (k' = k /\ v' = v) \/ In (k', v') d.
Proof.
  induction d as [|[k0 v0] d IH]; simpl.
  - intros [[= <- <-]|[]]. now left.
  - destruct (String.eqb k0 k) eqn:E; simpl.
    + apply String.eqb_eq in E. subst k0.
      intros [[= <- <-]|H]; [now left|right; now right].
    + intros [H|H]; [right; now left|].
      destruct (IH H) as [H'|H']; [now left|right; now right].
Qed.

Lemma mark_seen_counted (i : info) status emotion :
  counted_once i (mark_seen i status emotion).
Proof.
  unfold counted_once, mark_seen. simpl. right. split; [reflexivity|].
  destruct (String.eqb status "Attentive"); [now right|now left].
Qed.

Lemma counted_once_ok (i i' : info) :
  counted_once i i' ->
  (0 <= frames_attentive i <= frames_present i)%Z ->
  (0 <= frames_attentive i' <= frames_present i')%Z.
Proof. unfold counted_once. lia. Qed.

Lemma process_face_step students_df do_heavy w h st f k i' :
  PyDict.lookup (attendance (process_face students_df do_heavy w h st f)) k
  = Some i' ->
  exists i, PyDict.lookup (attendance st) k = Some i /\ counted_once i i'.
Proof.
  assert (Same : PyDict.lookup (attendance st) k = Some i' ->
                 exists i, PyDict.lookup (attendance st) k = Some i /\
                           counted_once i i').
  { intros E. exists i'. split; [exact E|]. left. now split. }
  unfold process_face. destruct do_heavy; [|exact Same].
  destruct (estimate_attention_status _ _ _ _ _ _) as [status c].
  destruct (identify_student_traced _ _ _) as [[r|] vc]; [|exact Same].
  destruct (PyDict.lookup (attendance st) r) as [i|] eqn:E; [|exact Same].
  simpl. destruct (string_dec k r) as [->|Hne].
  - rewrite lookup_set_same. intros [= <-]. exists i.
    split; [exact E|apply mark_seen_counted].
  - rewrite lookup_set_other by exact Hne. exact Same.
Qed.

Lemma process_face_ok students_df do_heavy w h st f :
  counters_ok (attendance st) ->
  counters_ok (attendance (process_face students_df do_heavy w h st f)).
Proof.
  intros Hok. unfold process_face. destruct do_heavy; [|exact Hok].
  destruct (estimate_attention_status _ _ _ _ _ _) as [status c].
  destruct (identify_student_traced _ _ _) as [[r|] vc]; [|exact Hok].
  destruct (PyDict.lookup (attendance st) r) as [i|] eqn:E; [|exact Hok].
  simpl. intros k i' Hin. apply in_set in Hin.
  destruct Hin as [[-> ->]|Hin]; [|now apply (Hok k)].
  apply counted_once_ok with i; [apply mark_seen_counted|].
  apply (Hok r). now apply lookup_in.
Qed.

Lemma process_faces_ok students_df do_heavy w h fs :
  forall st,
    counters_ok (attendance st) ->
    counters_ok
      (attendance (fold_left (process_face students_df do_heavy w h) fs st)).
Proof.
  induction fs as [|f fs IH]; intros st Hok; simpl; [exact Hok|].
  apply IH. now apply process_face_ok.
Qed.

Lemma process_frame_ok students_df st fr :
  counters_ok (attendance st) ->
  counters_ok (attendance (process_frame students_df st fr)).
Proof. intros Hok. unfold process_frame. now apply process_faces_ok. Qed.

Lemma session_loop_ok students_df turns :
  forall st, counters_ok (attendance st) ->
             counters_ok
               (attendance (fst (session_loop students_df turns st))).
Proof.
  induction turns as [|fr rest IH]; intros st Hok; simpl; [exact Hok|].
  destruct (ret fr); simpl; [|exact Hok].
  destruct (Z.land (waitKey fr) 255 =? 113)%Z; simpl.
  - now apply process_frame_ok.
  - apply IH. now apply process_frame_ok.
Qed.

Lemma start_ok students_df : counters_ok (attendance (start students_df)).
Proof.
  unfold start, init_attendance_dict. simpl.
  assert (G : forall rows (acc : PyDict.t info),
             counters_ok acc ->
             counters_ok
               (fold_left
                  (fun a row =>
                     PyDict.set a (col_roll_no row)
                       {| name := col_name row;
                          department := col_department row;
                          section := col_section row;
                          email := col_email row;
                          phone := col_phone row;
                          present := false;
                          frames_present := 0;
                          frames_attentive := 0;
                          dominant_emotions := [] |}) rows acc)).
  { induction rows as [|row rows IH]; intros acc Hok; simpl; [exact Hok|].
    apply IH. intros k i Hin. apply in_set in Hin.
    destruct Hin as [[-> ->]|Hin]; [simpl; lia|now apply (Hok k)]. }
  apply G. intros k i [].
Qed.

Context {F : Type} `{PyFloat F} `{!PyFloatLaws F}.

Lemma attentive_pct_le roll_no (i : info) total date time (row : report_row) :
  (0 <= frames_attentive i <= frames_present i)%Z ->
  report_row_of roll_no i total date time = inr row ->
  fle (Pct_Time_Attentive row) fhundred.
Proof.
  intros Hok E. destruct (report_row_of_says _ _ _ _ _ _ E) as (_ & Ha & Hp).
  destruct (Z.eq_dec (frames_present i) 0) as [Hz|Hnz].
  - apply Ha in Hz. destruct Hz as (_ & _ & -> & _). apply fzero_le_hundred.
  - destruct (Hp Hnz) as (_ & _ & -> & _).
    apply fle_trans with (round2 fhundred); [|apply round2_hundred].
    apply round2_mono.
    apply fle_trans with (fmul fone fhundred); [|apply fmul_one_hundred].
    apply fmul_hundred_mono.
    apply fle_trans with (true_div (frames_present i) (frames_present i)).
    + apply true_div_mono; lia.
    + apply true_div_self. lia.
Qed.

Lemma rows_attentive_le (items : list (string * info)) total date time
      (rows : list report_row) :
  counters_ok items ->
  Forall2 (fun item row =>
             report_row_of (fst item) (snd item) total date time = inr row)
          items rows ->
  forall row, In row rows -> fle (Pct_Time_Attentive row) fhundred.
Proof.
  intros Hok Hf.
  induction Hf as [|item row items rows' Hrow Hf IH]; [intros ? []|].
  intros row' [<-|Hin].
  - apply attentive_pct_le with (fst item) (snd item) total date time;
      [|exact Hrow].
    apply (Hok (fst item)). left. now destruct item.
  - apply IH; [|exact Hin]. intros k i Hi. apply (Hok k). now right.
Qed.

End CounterInvariant.

(** C9.  At every point of the session loop every student has
    0 <= frames_attentive <= frames_present: handling a face leaves a
    student's counters alone or adds one present frame and at most one
    attentive frame.  The report of any attendance dictionary is computed
    without a division by zero, and in the report of a session every
    "% Time Attentive" is at most 100. *)
Theorem attentive_within_present {F : Type} `{PyFloat F} `{!PyFloatLaws F}
        (students_df : list Main.student_row) (turns : list Main.frame)
        (session_date session_time : string) :
  let st := fst (Main.session_loop students_df turns
                                   (Main.start students_df)) in
  Says.counters_ok (Main.attendance st) /\
  (forall do_heavy w h s f,
      (Says.counters_ok (Main.attendance s) ->
       Says.counters_ok
         (Main.attendance (Main.process_face students_df do_heavy w h s f))) /\
      forall k i',
        PyDict.lookup
          (Main.attendance (Main.process_face students_df do_heavy w h s f)) k
        = Some i' ->
        exists i, PyDict.lookup (Main.attendance s) k = Some i /\
                  Says.counted_once i i') /\
  (forall (attendance : PyDict.t Main.info) (total_frames : Z),
      exists rows : list Main.report_row,
        Main.compute_session_report attendance total_frames
                                    session_date session_time = inr rows) /\
  exists rows : list Main.report_row,
    Main.compute_session_report (Main.attendance st) (Main.total_frames st)
                                session_date session_time = inr rows /\
    forall row, In row rows -> fle (Main.Pct_Time_Attentive row) fhundred.
Proof.
  intros st.
  assert (Hok : Says.counters_ok (Main.attendance st)).
  { subst st. apply session_loop_ok, start_ok. }
  split; [exact Hok|]. split; [|split].
  - intros do_heavy w h s f. split.
    + apply process_face_ok.
    + apply process_face_step.
  - intros attendance total_frames.
    destruct (report_rows_total attendance total_frames session_date
                                session_time) as (rows & E & _).
    now exists rows.
  - destruct (report_rows_total (Main.attendance st) (Main.total_frames st)
                                session_date session_time)
      as (rows & E & _ & Hf & _).
    exists rows. split; [exact E|].
    now apply rows_attentive_le with (Main.attendance st)
                                     (Main.total_frames st)
                                     session_date session_time.
Qed.

Lemma attentive_within_present_witness :
  Main.attendance
    (fst (Main.session_loop Sample.students_df Sample.turns
                            (Main.start Sample.students_df)))
  = [("12", Sample.seen "Asha" 0 0 []);
     ("13", {| Main.name := "Ravi"; Main.department := "CSE";
               Main.section := "A"; Main.email := ""; Main.phone := "";
               Main.present := true; Main.frames_present := 2;
               Main.frames_attentive := 2;
               Main.dominant_emotions := ["happy"; "happy"] |});
     ("14", Sample.seen "Mena" 0 0 [])] /\
  exists rows : list Main.report_row,
    Main.compute_session_report
      (Main.attendance
         (fst (Main.session_loop Sample.students_df Sample.turns
                                 (Main.start Sample.students_df))))
      (Main.total_frames
         (fst (Main.session_loop Sample.students_df Sample.turns
                                 (Main.start Sample.students_df))))
      "2025-03-01" "10:15:00" = inr rows /\
    forall row, In row rows -> (Main.Pct_Time_Attentive row <= 100)%Q.
Proof.
  split; [vm_compute; reflexivity|].
  exact (proj2 (proj2 (proj2
    (@attentive_within_present Q QFloat.ops QFloat_laws Sample.students_df
       Sample.turns "2025-03-01" "10:15:00")))).
Defined.

(** ** Which frames reach DeepFace *)

Section HeavyFrames.
Import Main Says.

Lemma identify_loop_calls (n : Z) (f : face) (rows : list student_row) :
  forall best_roll best_distance calls,
    snd (identify_loop n f rows best_roll best_distance calls)
    = calls ++ map (CallVerify n f)
                   (filter (path_exists f) (map col_image_path rows)).
Proof.
  induction rows as [|row rest IH]; intros br bd calls; simpl.
  - now rewrite app_nil_r.
  - destruct (path_exists f (col_image_path row)); simpl negb; cbv iota.
    + assert (G : forall br' bd',
                 snd (identify_loop n f rest br' bd'
                        (calls ++ [CallVerify n f (col_image_path row)]))
                 = calls ++ map (CallVerify n f)
                     (col_image_path row
                      :: filter (path_exists f) (map col_image_path rest))).
      { intros br' bd'. rewrite IH, <- app_assoc. reflexivity. }
      destruct (verify f (col_image_path row)) as [|[distance|]];
        try apply G.
      destruct (match bd with Some best => Py.Qlt_bool distance best
                         | None => true end); apply G.
    + apply IH.
Qed.

Lemma identify_traced (n : Z) (f : face) (students_df : list student_row) :
  identify_student_traced n f students_df
  = (identify_student f students_df,
     map (CallVerify n f)
         (filter (path_exists f) (map col_image_path students_df))).
Proof.
  unfold identify_student, identify_student_traced.
  pose proof (identify_loop_calls n f students_df None None []) as Hc.
  pose proof (identify_loop_result_calls f n 0 students_df None None [] [])
    as Hr.
  destruct (identify_loop n f students_df None None []) as [[r d] c].
  destruct (identify_loop 0 f students_df None None []) as [[r0 d0] c0].
  simpl in Hc, Hr. injection Hr as <- <-. subst c.
  destruct d as [best|]; [|reflexivity].
  now destruct (Py.Qlt_bool best FACE_MATCH_THRESHOLD).
Qed.

Lemma process_face_heavy students_df w h st f :
  let st' := process_face students_df true w h st f in
  total_frames st' = total_frames st /\
  calls st' = calls st ++ heavy_calls (total_frames st) students_df f /\
  attendance st' = counted students_df w h (attendance st) f.
Proof.
  cbv zeta. unfold process_face, counted, heavy_calls.
  rewrite identify_traced.
  destruct (estimate_attention_status _ _ _ _ _ _) as [status c]. simpl fst.
  destruct (identify_student f students_df) as [r|].
  - destruct (PyDict.lookup (attendance st) r); simpl;
      rewrite <- app_assoc; repeat split.
  - simpl. rewrite <- app_assoc. repeat split.
Qed.

Lemma process_faces_heavy students_df w h fs :
  forall st,
    let st' := fold_left (process_face students_df true w h) fs st in
    total_frames st' = total_frames st /\
    calls st'
    = calls st ++ flat_map (heavy_calls (total_frames st) students_df) fs /\
    attendance st' = fold_left (counted students_df w h) fs (attendance st).
Proof.
  induction fs as [|f fs IH]; intros st; cbv zeta; cbn [fold_left flat_map].
  - now rewrite app_nil_r.
  - pose proof (process_face_heavy students_df w h st f) as H.
    cbv zeta in H. destruct H as (Ht & Hc & Ha).
    pose proof (IH (process_face students_df true w h st f)) as H.
    cbv zeta in H. destruct H as (Ht' & Hc' & Ha').
    rewrite Ht', Hc', Ha', Ht, Hc, Ha, <- app_assoc. repeat split.
Qed.

Lemma process_faces_light students_df w h fs :
  forall st, fold_left (process_face students_df false w h) fs st = st.
Proof. induction fs as [|f fs IH]; intros st; simpl; [reflexivity|apply IH]. Qed.

Lemma emotion_answered (f : face) :
  get_dominant_emotion f = answered_emotion f.
Proof.
  unfold get_dominant_emotion, answered_emotion, PyDict.get.
  destruct (analyze f) as [|d|[|d l]]; reflexivity.
Qed.

Lemma attentive_centred (f : face) (w h : Z) :
  String.eqb (fst (estimate_attention_status (x f) (y f) (w_box f) (h_box f)
                                             w h)) "Attentive" = true
  <-> centred f w h.
Proof.
  unfold estimate_attention_status, centred. rewrite !within_quarter_iff.
  pose proof (Qlt_bool_iff
                (inject_Z (Z.abs (x f + w_box f / 2 - w / 2)))
                (inject_Z w * (1 # 4))) as Hx.
  pose proof (Qlt_bool_iff
                (inject_Z (Z.abs (y f + h_box f / 2 - h / 2)))
                (inject_Z h * (1 # 4))) as Hy.
  destruct (Py.Qlt_bool (inject_Z (Z.abs (x f + w_box f / 2 - w / 2))) _);
    destruct (Py.Qlt_bool (inject_Z (Z.abs (y f + h_box f / 2 - h / 2))) _);
    simpl; split; try reflexivity; try discriminate;
    try (intros _; split; [now apply Hx|now apply Hy]);
    intros [Ax Ay];
    try (apply Hx in Ax; discriminate Ax);
    apply Hy in Ay; discriminate Ay.
Qed.

Lemma mark_seen_marked (f : face) (w h : Z) (i : info) :
  marked f w h i
    (mark_seen i
       (fst (estimate_attention_status (x f) (y f) (w_box f) (h_box f) w h))
       (get_dominant_emotion f)).
Proof.
  unfold marked, mark_seen. cbn [name department section email phone present
    frames_present frames_attentive dominant_emotions].
  pose proof (emotion_answered f) as He.
  set (emotion := get_dominant_emotion f) in *. clearbody emotion.
  subst emotion.
  pose proof (attentive_centred f w h) as Hc.
  do 7 (split; [reflexivity|]).
  split; [|split; [|split]].
  - intros C. apply Hc in C. now rewrite C.
  - intros C.
    destruct (String.eqb (fst (estimate_attention_status _ _ _ _ _ _))
                         "Attentive"); [|reflexivity].
    elim C. now apply Hc.
  - intros Hne. apply String.eqb_neq in Hne. now rewrite Hne.
  - intros ->. reflexivity.
Qed.

Lemma identified_recognised (f : face) (students_df : list student_row) :
  match identify_student f students_df with
  | Some r => recognised f students_df r
  | None => unrecognised f students_df
  end.
Proof.
  destruct (identify_student_best f students_df)
    as (r & d & calls & _ & Inv & Res).
  rewrite Res. destruct d as [best|].
  - destruct (Py.Qlt_bool best FACE_MATCH_THRESHOLD) eqn:Elt.
    + apply Qlt_bool_iff in Elt.
      pose proof Inv as [(row & _ & -> & _) _].
      exists best. now split.
    + apply Qlt_bool_false_iff in Elt. right. exists r, best. now split.
  - left. destruct Inv as [_ Hno]. exact Hno.
Qed.

Lemma set_replaced (a : PyDict.t info) (r : string) (i i' : info) :
  PyDict.lookup a r = Some i -> entry_replaced a r i' (PyDict.set a r i').
Proof.
  intros Hl. split; [now apply keys_set_present with i|].
  split; [apply lookup_set_same|].
  intros k Hne. now apply lookup_set_other.
Qed.

Lemma counted_face_counted students_df w h (a : PyDict.t info) (f : face) :
  face_counted students_df w h f a (counted students_df w h a f).
Proof.
  unfold counted. pose proof (identified_recognised f students_df) as Hr.
  destruct (identify_student f students_df) as [r|].
  - destruct (PyDict.lookup a r) as [i|] eqn:El.
    + left. exists r, i. eexists. split; [exact Hr|]. split; [exact El|].
      split; [apply mark_seen_marked|now apply set_replaced with i].
    + right. split; [reflexivity|]. right. exists r. now split.
  - right. split; [reflexivity|]. now left.
Qed.

Lemma fold_counted students_df w h (fs : list face) :
  forall a, faces_counted students_df w h fs a
                          (fold_left (counted students_df w h) fs a).
Proof.
  induction fs as [|f fs IH]; intros a; simpl.
  - constructor.
  - apply counted_next with (counted students_df w h a f);
      [apply counted_face_counted|apply IH].
Qed.

End HeavyFrames.

(** C5, as amended.  The loop counts every captured frame and hands its
    faces to DeepFace only when the count is a multiple of
    [PROCESS_EVERY_N_FRAMES] (3).  On such a frame, for every face in
    order, [analyze] is called once and [verify] once per student whose
    image file exists, and the counters are updated from the answers: when
    a nearest student is below the threshold and has an entry, that entry
    is flagged present and gets one more present frame, one more attentive
    frame exactly when the face is centred, and the emotion answered unless
    it is "unknown", every other entry staying as it was; otherwise the
    dictionary stays as it was.  On any other frame no call is made and the
    attendance dictionary is left as it was. *)
Theorem deepface_every_third_frame
        (students_df : list Main.student_row) (st : Main.session)
        (fr : Main.frame) :
  let n := (Main.total_frames st + 1)%Z in
  let st' := Main.process_frame students_df st fr in
  Main.total_frames st' = n /\
  ((n mod Main.PROCESS_EVERY_N_FRAMES)%Z = 0%Z ->
   Main.calls st'
   = Main.calls st ++
     flat_map (Says.heavy_calls n students_df) (Main.faces fr) /\
   Says.faces_counted students_df (Main.width fr) (Main.height fr)
                      (Main.faces fr) (Main.attendance st)
                      (Main.attendance st')) /\
  ((n mod Main.PROCESS_EVERY_N_FRAMES)%Z <> 0%Z ->
   Main.calls st' = Main.calls st /\
   Main.attendance st' = Main.attendance st).
Proof.
  intros n st'. subst st'. unfold Main.process_frame.
  set (st1 := {| Main.attendance := Main.attendance st;
                 Main.total_frames := (Main.total_frames st + 1)%Z;
                 Main.calls := Main.calls st |}).
  change (Main.total_frames st1) with n.
  destruct (n mod Main.PROCESS_EVERY_N_FRAMES =? 0)%Z eqn:E.
  - apply Z.eqb_eq in E.
    pose proof (process_faces_heavy students_df (Main.width fr)
                  (Main.height fr) (Main.faces fr) st1) as Hh.
    cbv zeta in Hh. destruct Hh as (Ht & Hc & Ha).
    split; [exact Ht|]. split; [|intros Hne; now elim Hne].
    intros _. split; [exact Hc|]. rewrite Ha. apply fold_counted.
  - apply Z.eqb_neq in E. rewrite process_faces_light.
    split; [reflexivity|]. split; [intros Hz; now elim E|].
    intros _. now split.
Qed.

Lemma deepface_every_third_frame_witness :
  Main.calls (Main.process_frame Sample.students_df
                {| Main.attendance :=
                     Main.init_attendance_dict Sample.students_df;
                   Main.total_frames := 2; Main.calls := [] |}
                (Sample.shot (-1)))
  = [Main.CallAnalyze 3 Sample.a_face;
     Main.CallVerify 3 Sample.a_face "students/12.jpg";
     Main.CallVerify 3 Sample.a_face "students/13.jpg"].
Proof.
  exact (proj1 (proj1 (proj2 (deepface_every_third_frame Sample.students_df
           {| Main.attendance := Main.init_attendance_dict Sample.students_df;
              Main.total_frames := 2; Main.calls := [] |}
           (Sample.shot (-1)))) eq_refl)).
Defined.

(** C5 as stated fails on the first frame of a session: the frame is
    captured, a face is detected in it, and the loop makes no DeepFace call
    and counts nothing. *)
Lemma every_frame_counterexample :
  let st := fst (Main.session_loop Sample.students_df [Sample.shot 113]
                                   (Main.start Sample.students_df)) in
  Main.ret (Sample.shot 113) = true /\
  In Sample.a_face (Main.faces (Sample.shot 113)) /\
  Main.total_frames st = 1%Z /\
  Main.calls st = [] /\
  Main.attendance st = Main.init_attendance_dict Sample.students_df.
Proof.
  repeat split; try reflexivity. now left.
Qed.

(** ** Writing the report *)


(** * Further properties *)

(** ** Registration: which requests are accepted *)

Section ScanFacts.
Import PyStr Terms.







End ScanFacts.

Section AcceptFacts.
Import PyStr Terms.




End AcceptFacts.




(** Two requests on which the view raises: one finds a line cut short
    after the roll number, the photo of the other cannot be saved.  Nothing
    is flashed and no line is added. *)
Example register_raises :
  App.register (Sample.post "13" "9876543211") (Some Sample.cut_csv)
  = App.raise Err.AttributeError (Some Sample.cut_csv) /\
  App.register Sample.folder_post (Some Sample.students_csv)
  = App.raise Err.OSError (Some Sample.students_csv).
Proof. split; vm_compute; reflexivity. Qed.

(** ** Registration at the console: camera and capture *)

Section ConsoleFacts.
Import PyStr Terms.

Lemma try_indexes_found cam :
  forall n index j,
    fst (RegisterStudent.try_indexes cam index n) = Some j ->
    index <= j < index + n /\ RegisterStudent.isOpened cam j = true /\
    forall k, index <= k < j -> RegisterStudent.isOpened cam k = false.
Proof.
  induction n as [|n IH]; intros index j; simpl; [discriminate|].
  destruct (RegisterStudent.isOpened cam index) eqn:E; simpl.
  - intros [= <-]. split; [lia|]. split; [exact E|]. intros k Hk. lia.
  - destruct (RegisterStudent.try_indexes cam (S index) n) as [found out] eqn:Et.
    simpl. intros ->.
    specialize (IH (S index) j). rewrite Et in IH.
    destruct (IH eq_refl) as (Hr & Ho & Hb).
    split; [lia|]. split; [exact Ho|]. intros k Hk.
    destruct (Nat.eq_dec k index) as [->|Hne]; [exact E|apply Hb; lia].
Qed.

Lemma try_indexes_none cam :
  forall n index,
    fst (RegisterStudent.try_indexes cam index n) = None <->
    forall k, index <= k < index + n -> RegisterStudent.isOpened cam k = false.
Proof.
  induction n as [|n IH]; intros index; simpl.
  - split; [intros _ k Hk; lia|reflexivity].
  - destruct (RegisterStudent.isOpened cam index) eqn:E; simpl.
    + split; [discriminate|]. intros Hall.
      rewrite Hall in E by lia. discriminate.
    + destruct (RegisterStudent.try_indexes cam (S index) n)
        as [found out] eqn:Et.
      simpl. specialize (IH (S index)). rewrite Et in IH. simpl in IH.
      rewrite IH. split.
      * intros Hall k Hk.
        destruct (Nat.eq_dec k index) as [->|Hne]; [exact E|apply Hall; lia].
      * intros Hall k Hk. apply Hall. lia.
Qed.



End ConsoleFacts.

(** X3.  [open_camera] answers the smallest of the indexes 0, 1, 2 whose
    camera opens, and nothing exactly when none of the three opens; it never
    answers an index of 3 or more. *)
Theorem open_camera_first_index (cam : RegisterStudent.camera) :
  (forall j, fst (RegisterStudent.open_camera cam) = Some j ->
             j < 3 /\ RegisterStudent.isOpened cam j = true /\
             forall k, k < j -> RegisterStudent.isOpened cam k = false) /\
  (fst (RegisterStudent.open_camera cam) = None <->
   forall k, k < 3 -> RegisterStudent.isOpened cam k = false).
Proof.
  unfold RegisterStudent.open_camera. split.
  - intros j Hj. apply try_indexes_found in Hj.
    destruct Hj as (Hr & Ho & Hb). split; [lia|]. split; [exact Ho|].
    intros k Hk. apply Hb. lia.
  - rewrite try_indexes_none. split; intros Hall k Hk; apply Hall; lia.
Qed.

Section ConsoleOutcome.
Import PyStr Terms.


End ConsoleOutcome.


(** ** Registration: a roll number that is in the file *)

Section KnownFacts.
Import PyStr Terms.





End KnownFacts.



(** ** Registration: what is written is found again *)

Section RoundTrip.
Import PyStr Terms.














End RoundTrip.

Section TakenProofs.
Import PyStr Terms.


End TakenProofs.






Section UniqueRolls.
Import PyStr Terms.




End UniqueRolls.



(** ** The session loop, frame by frame *)

Section LoopFacts.
Import Main SessionTerms.

Lemma session_loop_captured students_df turns :
  forall st,
    fst (session_loop students_df turns st)
    = fold_left (process_frame students_df) (captured turns) st /\
    snd (session_loop students_df turns st) = breaks turns.
Proof.
  induction turns as [|fr rest IH]; intros st; simpl; [now split|].
  unfold breaks. simpl.
  destruct (ret fr); simpl; [|now split].
  destruct (Z.land (waitKey fr) 255 =? 113)%Z; simpl; [now split|].
  apply IH.
Qed.

Lemma process_faces_total students_df do_heavy w h fs :
  forall st,
    total_frames (fold_left (process_face students_df do_heavy w h) fs st)
    = total_frames st.
Proof.
  induction fs as [|f fs IH]; intros st; simpl; [reflexivity|].
  rewrite IH. unfold process_face. destruct do_heavy; [|reflexivity].
  destruct (estimate_attention_status _ _ _ _ _ _) as [status c].
  destruct (identify_student_traced _ _ _) as [[r|] vc]; [|reflexivity].
  now destruct (PyDict.lookup (attendance st) r).
Qed.

Lemma process_frame_total students_df st fr :
  total_frames (process_frame students_df st fr) = (total_frames st + 1)%Z.
Proof. unfold process_frame. now rewrite process_faces_total. Qed.

Lemma fold_frames_total students_df frames :
  forall st,
    total_frames (fold_left (process_frame students_df) frames st)
    = (total_frames st + Z.of_nat (List.length frames))%Z.
Proof.
  induction frames as [|fr frames IH]; intros st; simpl fold_left.
  - simpl. lia.
  - rewrite IH, process_frame_total. simpl List.length. lia.
Qed.

Lemma captured_prefix turns :
  exists rest, turns = captured turns ++ rest \/
               exists fr, In fr turns /\ ret fr = false /\
                          turns = captured turns ++ fr :: rest.
Proof.
  induction turns as [|fr turns (rest & IH)]; simpl.
  - exists []. now left.
  - destruct (ret fr) eqn:Er; simpl.
    + destruct (Z.land (waitKey fr) 255 =? 113)%Z.
      * exists turns. now left.
      * exists rest. destruct IH as [IH|(fr' & Hin & Hr & IH)].
        -- left. simpl. now rewrite <- IH.
        -- right. exists fr'. split; [now right|]. split; [exact Hr|].
           simpl. now rewrite <- IH.
    + exists turns. right. exists fr. split; [now left|]. now split.
Qed.

End LoopFacts.

(** X9.  The session loop handles the turns of the camera in order up to
    the first failed read (not counted) or the first turn with the key [q]
    (counted), and nothing after it: its state is that of handling exactly
    those frames, [total_frames] is their number, and the loop is left
    exactly when some turn has a failed read or the key [q]. *)
Theorem session_stops_at_first_break
        (students_df : list Main.student_row) (turns : list Main.frame) :
  let run := Main.session_loop students_df turns (Main.start students_df) in
  fst run = fold_left (Main.process_frame students_df)
                      (SessionTerms.captured turns)
                      (Main.start students_df) /\
  Main.total_frames (fst run)
  = Z.of_nat (List.length (SessionTerms.captured turns)) /\
  List.length (SessionTerms.captured turns) <= List.length turns /\
  snd run = SessionTerms.breaks turns /\
  (forall more,
      SessionTerms.breaks turns = true ->
      Main.session_loop students_df (turns ++ more) (Main.start students_df)
      = run).
Proof.
  intros run. subst run.
  destruct (session_loop_captured students_df turns (Main.start students_df))
    as [Hf Hs].
  split; [exact Hf|]. split.
  { rewrite Hf, fold_frames_total. simpl. lia. }
  split.
  { destruct (captured_prefix turns) as (rest & [E|(fr & _ & _ & E)]);
      rewrite E at 2; rewrite length_app; simpl; lia. }
  split; [exact Hs|].
  clear Hf Hs. intros more Hb. generalize (Main.start students_df) as st.
  induction turns as [|fr turns IH]; intros st; [discriminate Hb|].
  simpl. destruct (Main.ret fr) eqn:Er; simpl; [|reflexivity].
  destruct (Z.land (Main.waitKey fr) 255 =? 113)%Z eqn:Ek; [reflexivity|].
  apply IH. unfold SessionTerms.breaks in *. simpl in Hb.
  rewrite Er, Ek in Hb. exact Hb.
Qed.

(** ** What the loop keeps true of every entry *)

Section EntryFacts.
Import Main SessionTerms.

Variable P : info -> Prop.
Hypothesis P_mark_seen : forall i status emotion,
    P i -> P (mark_seen i status emotion).

Let all_entries (attendance : PyDict.t info) : Prop :=
  forall k i, In (k, i) attendance -> P i.

Lemma process_face_entries students_df do_heavy w h st f :
  all_entries (attendance st) ->
  all_entries (attendance (process_face students_df do_heavy w h st f)).
Proof.
  intros Hall. unfold process_face. destruct do_heavy; [|exact Hall].
  destruct (estimate_attention_status _ _ _ _ _ _) as [status c].
  destruct (identify_student_traced _ _ _) as [[r|] vc]; [|exact Hall].
  destruct (PyDict.lookup (attendance st) r) as [i|] eqn:E; [|exact Hall].
  simpl. intros k i' Hin. apply in_set in Hin.
  destruct Hin as [[-> ->]|Hin]; [|now apply (Hall k)].
  apply P_mark_seen. apply (Hall r). now apply lookup_in.
Qed.

Lemma process_faces_entries students_df do_heavy w h fs :
  forall st,
    all_entries (attendance st) ->
    all_entries
      (attendance (fold_left (process_face students_df do_heavy w h) fs st)).
Proof.
  induction fs as [|f fs IH]; intros st Hall; simpl; [exact Hall|].
  apply IH. now apply process_face_entries.
Qed.

Lemma process_frame_entries students_df st fr :
  all_entries (attendance st) ->
  all_entries (attendance (process_frame students_df st fr)).
Proof.
  intros Hall. unfold process_frame. now apply process_faces_entries.
Qed.

Lemma session_loop_entries students_df turns :
  forall st, all_entries (attendance st) ->
             all_entries
               (attendance (fst (session_loop students_df turns st))).
Proof.
  induction turns as [|fr rest IH]; intros st Hall; simpl; [exact Hall|].
  destruct (ret fr); simpl; [|exact Hall].
  destruct (Z.land (waitKey fr) 255 =? 113)%Z; simpl.
  - now apply process_frame_entries.
  - apply IH. now apply process_frame_entries.
Qed.

End EntryFacts.

Section FlagFacts.
Import Main SessionTerms.

Lemma init_entries (students_df : list student_row) k i :
  In (k, i) (init_attendance_dict students_df) ->
  present i = false /\ frames_present i = 0%Z /\
  frames_attentive i = 0%Z /\ dominant_emotions i = [] /\
  exists row, In row students_df /\ k = col_roll_no row /\
              name i = col_name row /\ department i = col_department row /\
              section i = col_section row.
Proof.
  unfold init_attendance_dict.
  assert (G : forall rows (acc : PyDict.t info),
             In (k, i)
                (fold_left
                   (fun a row =>
                      PyDict.set a (col_roll_no row)
                        {| name := col_name row;
                           department := col_department row;
                           section := col_section row;
                           email := col_email row;
                           phone := col_phone row;
                           present := false;
                           frames_present := 0;
                           frames_attentive := 0;
                           dominant_emotions := [] |}) rows acc) ->
             In (k, i) acc \/
             (present i = false /\ frames_present i = 0%Z /\
              frames_attentive i = 0%Z /\ dominant_emotions i = [] /\
              exists row, In row rows /\ k = col_roll_no row /\
                          name i = col_name row /\
                          department i = col_department row /\
                          section i = col_section row)).
  { induction rows as [|row rows IH]; intros acc Hin; simpl in Hin;
      [now left|].
    apply IH in Hin. destruct Hin as [Hin|(H1 & H2 & H3 & H4 & r & Hr & Hk)].
    - apply in_set in Hin. destruct Hin as [[-> ->]|Hin]; [|now left].
      right. simpl. repeat split; trivial. exists row.
      split; [now left|]. repeat split.
    - right. repeat split; trivial. exists r. split; [now right|exact Hk]. }
  intros Hin. apply G in Hin. destruct Hin as [[]|Hin]. exact Hin.
Qed.

Lemma mark_seen_entry_ok (i : info) status emotion :
  entry_ok i -> entry_ok (mark_seen i status emotion).
Proof.
  unfold entry_ok, mark_seen. simpl. intros (H0 & Hp & Hu & Hl).
  split; [lia|]. split; [split; [lia|reflexivity]|].
  destruct (String.eqb emotion "unknown") eqn:E; simpl.
  - split; [exact Hu|lia].
  - apply String.eqb_neq in E. split.
    + rewrite in_app_iff. simpl. intros [H|[H|[]]]; [contradiction|].
      congruence.
    + rewrite length_app. simpl. lia.
Qed.

Lemma start_entry_ok students_df k i :
  In (k, i) (attendance (start students_df)) -> entry_ok i.
Proof.
  intros Hin. apply init_entries in Hin.
  destruct Hin as (Hp & Hf & _ & He & _). unfold entry_ok.
  rewrite Hp, Hf, He. simpl. split; [lia|]. split; [|split; [tauto|lia]].
  split; [discriminate|lia].
Qed.

Context {F : Type} `{PyFloat F}.

Lemma report_row_of_status roll_no (i : info) total date time
      (row : report_row) :
  report_row_of roll_no i total date time = inr row ->
  (frames_present i = 0%Z /\ Status row = "Absent" /\
   Dominant_Emotion row = "N/A") \/
  (frames_present i <> 0%Z /\ Status row = "Present" /\
   ((dominant_emotions i = [] /\ Dominant_Emotion row = "unknown") \/
    In (Dominant_Emotion row) (dominant_emotions i))).
Proof.
  unfold report_row_of.
  destruct (frames_present i =? 0)%Z eqn:E0.
  - apply Z.eqb_eq in E0. intros [= <-]. left. simpl. tauto.
  - apply Z.eqb_neq in E0. unfold Py.truediv.
    rewrite (proj2 (Z.eqb_neq _ _) E0).
    assert (Hm : (Z.max total 1 =? 0)%Z = false) by (apply Z.eqb_neq; lia).
    rewrite Hm. cbn [Py.bind Py.ret].
    destruct (dominant_emotions i) as [|e l] eqn:El.
    + intros [= <-]. right. simpl. tauto.
    + destruct (dominant_most_frequent e l) as (label & Ef & Hin & _).
      rewrite Ef. cbn [Py.bind Py.ret]. intros [= <-]. right. simpl.
      split; [exact E0|]. split; [reflexivity|]. right. exact Hin.
Qed.

End FlagFacts.

(** X10.  Throughout a session every entry of the attendance dictionary
    has its [present] flag set exactly when [frames_present] is positive,
    never records the emotion "unknown", and records at most one emotion per
    counted frame.  So in the report the Status is "Present" exactly for the
    students whose flag is set, and the emotion is "unknown" exactly for a
    student who was seen without any emotion recorded. *)
Theorem present_flag_agrees {F : Type} `{PyFloat F}
        (students_df : list Main.student_row) (turns : list Main.frame)
        (total_frames : Z) (session_date session_time : string) :
  let attendance :=
    Main.attendance
      (fst (Main.session_loop students_df turns (Main.start students_df))) in
  (forall k i, In (k, i) attendance -> SessionTerms.entry_ok i) /\
  exists rows : list Main.report_row,
    Main.compute_session_report attendance total_frames
                                session_date session_time = inr rows /\
    Forall2
      (fun item row =>
         (Main.Status row = "Present" <-> Main.present (snd item) = true) /\
         (Main.Status row = "Absent" <-> Main.present (snd item) = false) /\
         (Main.Dominant_Emotion row = "unknown" <->
          Main.present (snd item) = true /\
          Main.dominant_emotions (snd item) = []))
      attendance rows.
Proof.
  intros attendance.
  assert (Hok : forall k i, In (k, i) attendance -> SessionTerms.entry_ok i).
  { subst attendance.
    apply (session_loop_entries SessionTerms.entry_ok mark_seen_entry_ok).
    intros k i. apply start_entry_ok. }
  split; [exact Hok|].
  destruct (report_rows_total attendance total_frames session_date
                              session_time) as (rows & E & _ & Hf & _).
  exists rows. split; [exact E|]. clear E.
  induction Hf as [|item row items rows' Hrow Hf IH]; constructor.
  - destruct item as [k i]. simpl snd in *. simpl fst in *.
    destruct (Hok k i (or_introl eq_refl)) as (H0 & Hp & Hu & _).
    apply report_row_of_status in Hrow.
    destruct Hrow as [(Hz & -> & ->)|(Hnz & -> & Hd)].
    + assert (Hfalse : Main.present i = false).
      { destruct (Main.present i); [|reflexivity].
        destruct Hp as [Hp _]. specialize (Hp eq_refl). lia. }
      rewrite Hfalse. repeat split; try discriminate; try tauto.
      intros [Hc _]. discriminate Hc.
    + assert (Htrue : Main.present i = true) by (apply Hp; lia).
      rewrite Htrue. split; [tauto|]. split; [split; discriminate|].
      destruct Hd as [[He ->]|Hin].
      * tauto.
      * split.
        -- intros Hun. rewrite Hun in Hin. contradiction.
        -- intros [_ He]. rewrite He in Hin. destruct Hin.
  - apply IH. intros k i Hin. apply (Hok k). now right.
Qed.

(** ** How often a student can be counted *)

Section ThirdFacts.
Import Main SessionTerms.

Let within (st : session) : Prop :=
  forall k i, In (k, i) (attendance st) ->
              (3 * frames_present i <= total_frames st)%Z.

Lemma process_frame_within students_df st fr :
  List.length (faces fr) <= 1 ->
  within st -> within (process_frame students_df st fr).
Proof.
  intros Hlen Hw. unfold within in *. rewrite process_frame_total.
  unfold process_frame.
  destruct (faces fr) as [|f [|f' fs]]; simpl in Hlen; [| |lia].
  - cbn [fold_left attendance]. intros k i Hin.
    specialize (Hw k i Hin). lia.
  - cbn [fold_left total_frames].
    destruct ((total_frames st + 1) mod PROCESS_EVERY_N_FRAMES =? 0)%Z eqn:Em.
    + apply Z.eqb_eq in Em. unfold PROCESS_EVERY_N_FRAMES in Em.
      pose proof (Z.div_mod (total_frames st + 1) 3 ltac:(lia)) as Hdm.
      unfold process_face.
      destruct (estimate_attention_status _ _ _ _ _ _) as [status c].
      destruct (identify_student_traced _ _ _) as [[r|] vc];
        cbn [attendance].
      * destruct (PyDict.lookup (attendance st) r) as [i0|] eqn:E;
          cbn [attendance].
        -- intros k i Hin. apply in_set in Hin.
           destruct Hin as [[-> ->]|Hin].
           ++ apply lookup_in in E. specialize (Hw r i0 E).
              cbn [mark_seen frames_present]. lia.
           ++ specialize (Hw k i Hin). lia.
        -- intros k i Hin. specialize (Hw k i Hin). lia.
      * intros k i Hin. specialize (Hw k i Hin). lia.
    + unfold process_face. cbn [attendance]. intros k i Hin.
      specialize (Hw k i Hin). lia.
Qed.

Lemma session_loop_within students_df turns :
  Forall (fun fr => List.length (faces fr) <= 1) turns ->
  forall st, within st -> within (fst (session_loop students_df turns st)).
Proof.
  intros Hall. induction Hall as [|fr rest Hfr Hall IH]; intros st Hw;
    simpl; [exact Hw|].
  destruct (ret fr); simpl; [|exact Hw].
  destruct (Z.land (waitKey fr) 255 =? 113)%Z; simpl.
  - now apply process_frame_within.
  - apply IH. now apply process_frame_within.
Qed.

Lemma start_within students_df : within (start students_df).
Proof.
  intros k i Hin. apply init_entries in Hin.
  destruct Hin as (_ & -> & _). simpl. lia.
Qed.

End ThirdFacts.

(** X11.  When no frame of the session shows more than one face, a
    student is counted on at most every third captured frame: at the end,
    three times [frames_present] is at most [total_frames] for every
    student, so that "% Time Present (approx)" is computed from a ratio of
    at most one third. *)
Theorem present_at_most_a_third
        (students_df : list Main.student_row) (turns : list Main.frame) :
  Forall (fun fr => List.length (Main.faces fr) <= 1) turns ->
  let st := fst (Main.session_loop students_df turns
                                   (Main.start students_df)) in
  forall k i, In (k, i) (Main.attendance st) ->
              (3 * Main.frames_present i <= Main.total_frames st)%Z.
Proof.
  intros Hall st. subst st.
  apply session_loop_within; [exact Hall|apply start_within].
Qed.

Lemma present_at_most_a_third_witness :
  Forall (fun entry => (3 * Main.frames_present (snd entry) <= 6)%Z)
         (Main.attendance
            (fst (Main.session_loop Sample.students_df Sample.turns
                                    (Main.start Sample.students_df)))).
Proof.
  apply Forall_forall. intros [k i] Hin.
  refine (present_at_most_a_third Sample.students_df Sample.turns _ k i Hin).
  repeat constructor.
Defined.

(** ** The report lists the students table *)

Section EchoFacts.
Import Main SessionTerms.

Lemma set_fresh {V} (d : PyDict.t V) k v :
  ~ In k (PyDict.keys d) -> PyDict.set d k v = d ++ [(k, v)].
Proof.
  induction d as [|[k' v'] d IH]; simpl; [reflexivity|].
  intros Hnot. destruct (String.eqb k' k) eqn:E.
  - apply String.eqb_eq in E. elim Hnot. now left.
  - rewrite IH; [reflexivity|]. intros H. apply Hnot. now right.
Qed.

Lemma init_unique_gen (mk : student_row -> info) (rows : list student_row) :
  forall acc : PyDict.t info,
    NoDup (PyDict.keys acc ++ map col_roll_no rows) ->
    fold_left (fun a row => PyDict.set a (col_roll_no row) (mk row)) rows acc
    = acc ++ map (fun row => (col_roll_no row, mk row)) rows.
Proof.
  induction rows as [|row rows IH]; intros acc Hnd; simpl.
  - now rewrite app_nil_r.
  - assert (Hfresh : ~ In (col_roll_no row) (PyDict.keys acc)).
    { intros Hin. simpl in Hnd. apply NoDup_remove_2 in Hnd. apply Hnd.
      apply in_or_app. now left. }
    rewrite set_fresh by exact Hfresh. rewrite IH.
    + rewrite <- app_assoc. reflexivity.
    + unfold PyDict.keys. rewrite map_app. simpl. rewrite <- app_assoc.
      exact Hnd.
Qed.

Lemma set_same_identity (d : PyDict.t info) r (i v : info) :
  PyDict.lookup d r = Some i ->
  identity (r, v) = identity (r, i) ->
  map identity (PyDict.set d r v) = map identity d.
Proof.
  induction d as [|[k' v'] d IH]; simpl; [discriminate|].
  destruct (String.eqb k' r) eqn:E.
  - apply String.eqb_eq in E. subst k'. intros [= ->] Hid. simpl.
    now rewrite Hid.
  - intros Hl Hid. simpl. now rewrite IH.
Qed.

Lemma process_face_identity students_df do_heavy w h st f :
  map identity (attendance (process_face students_df do_heavy w h st f))
  = map identity (attendance st).
Proof.
  unfold process_face. destruct do_heavy; [|reflexivity].
  destruct (estimate_attention_status _ _ _ _ _ _) as [status c].
  destruct (identify_student_traced _ _ _) as [[r|] vc]; [|reflexivity].
  destruct (PyDict.lookup (attendance st) r) as [i|] eqn:E; [|reflexivity].
  simpl. now apply set_same_identity with i.
Qed.

Lemma session_loop_identity students_df turns :
  forall st,
    map identity (attendance (fst (session_loop students_df turns st)))
    = map identity (attendance st).
Proof.
  assert (Faces : forall do_heavy w h fs st,
             map identity
                 (attendance
                    (fold_left (process_face students_df do_heavy w h) fs st))
             = map identity (attendance st)).
  { intros do_heavy w h fs. induction fs as [|f fs IH]; intros st; simpl;
      [reflexivity|].
    rewrite IH. apply process_face_identity. }
  assert (Frame : forall st fr,
             map identity (attendance (process_frame students_df st fr))
             = map identity (attendance st)).
  { intros st fr. unfold process_frame. now rewrite Faces. }
  induction turns as [|fr rest IH]; intros st; simpl; [reflexivity|].
  destruct (ret fr); simpl; [|reflexivity].
  destruct (Z.land (waitKey fr) 255 =? 113)%Z; simpl.
  - apply Frame.
  - rewrite IH. apply Frame.
Qed.

Context {F : Type} `{PyFloat F}.

Lemma report_row_of_identity roll_no (i : info) total date time
      (row : report_row) :
  report_row_of roll_no i total date time = inr row ->
  (Roll_No row, Name row, Department row, Section_ row)
  = identity (roll_no, i).
Proof.
  unfold report_row_of.
  destruct (frames_present i =? 0)%Z; [intros [= <-]; reflexivity|].
  destruct (Py.truediv _ _) as [e|q]; [discriminate|].
  cbn [Py.bind]. destruct (Py.truediv _ _) as [e|q']; [discriminate|].
  cbn [Py.bind].
  destruct (match dominant_emotions i with
            | [] => Py.ret "unknown"
            | _ :: _ => first_label (most_common_1
                                       (Counter (dominant_emotions i)))
            end) as [e|label]; [discriminate|].
  cbn [Py.bind Py.ret]. intros [= <-]. reflexivity.
Qed.

End EchoFacts.

(** X12.  When the roll numbers of the students table are pairwise
    distinct, the report of a session lists the table: its rows carry, in
    the order of the table, the roll number, name, department and section
    of each student, whatever the camera showed. *)
Theorem report_lists_the_table {F : Type} `{PyFloat F}
        (students_df : list Main.student_row) (turns : list Main.frame)
        (total_frames : Z) (session_date session_time : string) :
  NoDup (map Main.col_roll_no students_df) ->
  exists rows : list Main.report_row,
    Main.compute_session_report
      (Main.attendance
         (fst (Main.session_loop students_df turns
                                 (Main.start students_df))))
      total_frames session_date session_time = inr rows /\
    map (fun row => (Main.Roll_No row, Main.Name row, Main.Department row,
                     Main.Section_ row)) rows
    = map SessionTerms.listed students_df.
Proof.
  intros Hnd.
  set (attendance := Main.attendance
                       (fst (Main.session_loop students_df turns
                                               (Main.start students_df)))).
  assert (Hid : map SessionTerms.identity attendance
                = map SessionTerms.listed students_df).
  { subst attendance. rewrite session_loop_identity.
    unfold Main.start, Main.init_attendance_dict. simpl Main.attendance.
    rewrite init_unique_gen by exact Hnd. simpl. rewrite map_map.
    reflexivity. }
  destruct (report_rows_total attendance total_frames session_date
                              session_time) as (rows & E & _ & Hf & _).
  exists rows. split; [exact E|]. rewrite <- Hid. clear E Hid.
  induction Hf as [|item row items rows' Hrow Hf IH]; [reflexivity|].
  simpl. rewrite IH. f_equal. destruct item as [k i].
  now apply report_row_of_identity with total_frames session_date
                                        session_time.
Qed.

Lemma report_lists_the_table_witness :
  exists rows : list (@Main.report_row Q),
    Main.compute_session_report
      (Main.attendance
         (fst (Main.session_loop Sample.students_df Sample.turns
                                 (Main.start Sample.students_df))))
      6 "2025-03-01" "10:15:00" = inr rows /\
    map (fun row => (Main.Roll_No row, Main.Name row, Main.Department row,
                     Main.Section_ row)) rows
    = [("12", "Asha", "CSE", "A"); ("13", "Ravi", "CSE", "A");
       ("14", "Mena", "CSE", "A")].
Proof.
  refine (report_lists_the_table Sample.students_df Sample.turns 6
                                 "2025-03-01" "10:15:00" _).
  repeat constructor; simpl; intuition discriminate.
Defined.

(** ** Ties between students *)

Section TieFacts.
Import Main Says SessionTerms.

Variable f : face.

Lemma identify_loop_first (n : Z) (rows : list student_row) :
  forall seen best_roll best_distance calls,
    first_best f seen best_roll best_distance ->
    let '(r, d, _) :=
      identify_loop n f rows best_roll best_distance calls in
    first_best f (seen ++ rows) r d.
Proof.
  induction rows as [|row rest IH]; intros seen br bd calls Inv.
  - simpl. now rewrite app_nil_r.
  - assert (Keep : (forall d, ~ compared f row d) ->
                   first_best f (seen ++ [row]) br bd).
    { intros No. unfold first_best in *. destruct bd as [best|].
      - destruct Inv as (pre & r0 & post & -> & Hr & Hc & Hpre & Hpost).
        exists pre, r0, (post ++ [row]). split.
        + rewrite <- app_assoc. reflexivity.
        + split; [exact Hr|]. split; [exact Hc|]. split; [exact Hpre|].
          intros r1 d [H|[<-|[]]]%in_app_or Hc1; [now apply (Hpost r1)|].
          now elim (No d).
      - destruct Inv as [-> Hno]. split; [reflexivity|].
        intros r1 d [H|[<-|[]]]%in_app_or; [now apply Hno|apply No]. }
    replace (seen ++ row :: rest) with ((seen ++ [row]) ++ rest)
      by (rewrite <- app_assoc; reflexivity).
    simpl.
    destruct (path_exists f (col_image_path row)) eqn:Ex; simpl negb;
      cbv iota.
    2:{ apply IH, Keep. intros d [H _]. congruence. }
    destruct (verify f (col_image_path row)) as [|[distance|]] eqn:Ev.
    1,3: apply IH, Keep; intros d [_ H]; congruence.
    assert (Hrow : compared f row distance) by now split.
    assert (Uniq : forall d, compared f row d -> d = distance).
    { intros d [_ H]. congruence. }
    destruct bd as [best|].
    + destruct (Py.Qlt_bool distance best) eqn:Elt.
      * apply IH. apply Qlt_bool_iff in Elt.
        destruct Inv as (pre & r0 & post & -> & Hr & Hc & Hpre & Hpost).
        exists (pre ++ r0 :: post), row, []. split; [reflexivity|].
        split; [reflexivity|]. split; [exact Hrow|]. split.
        -- intros r1 d Hin Hc1. apply in_app_or in Hin.
           destruct Hin as [Hin|[<-|Hin]].
           ++ apply Qlt_trans with best; [exact Elt|now apply (Hpre r1)].
           ++ destruct Hc as [_ Hv], Hc1 as [_ Hv1].
              rewrite Hv in Hv1. injection Hv1 as <-. exact Elt.
           ++ apply Qlt_le_trans with best; [exact Elt|now apply (Hpost r1)].
        -- intros r1 d [].
      * apply IH. apply Qlt_bool_false_iff in Elt.
        destruct Inv as (pre & r0 & post & -> & Hr & Hc & Hpre & Hpost).
        exists pre, r0, (post ++ [row]). split.
        -- rewrite <- app_assoc. reflexivity.
        -- split; [exact Hr|]. split; [exact Hc|]. split; [exact Hpre|].
           intros r1 d [H|[<-|[]]]%in_app_or Hc1; [now apply (Hpost r1)|].
           now rewrite (Uniq d Hc1).
    + apply IH. destruct Inv as [_ Hno].
      exists seen, row, []. split; [reflexivity|]. split; [reflexivity|].
      split; [exact Hrow|]. split.
      * intros r1 d Hin Hc1. now elim (Hno r1 d Hin).
      * intros r1 d [].
Qed.

End TieFacts.

(** X13.  Among the students whose comparison with a face gives the same,
    smallest distance, [identify_student] names the one that comes first in
    the table: every successful comparison of an earlier row is strictly
    farther than the one of the row named, and none of a later row is
    closer. *)
Theorem identify_student_first_of_ties (f : Main.face)
        (students_df : list Main.student_row) (r : string) :
  Main.identify_student f students_df = Some r ->
  exists pre row post d,
    students_df = pre ++ row :: post /\
    Main.col_roll_no row = r /\
    Says.compared f row d /\ (d < Main.FACE_MATCH_THRESHOLD)%Q /\
    (forall row' d', In row' pre -> Says.compared f row' d' -> (d < d')%Q) /\
    (forall row' d', In row' post -> Says.compared f row' d' -> (d <= d')%Q).
Proof.
  intros Hr.
  pose proof (identify_loop_first f 0 students_df [] None None []) as H.
  unfold Main.identify_student, Main.identify_student_traced in Hr.
  destruct (Main.identify_loop 0 f students_df None None [])
    as [[r0 d0] calls].
  assert (Inv : SessionTerms.first_best f students_df r0 d0).
  { apply H. simpl. split; [reflexivity|]. intros ? ? []. }
  clear H. destruct d0 as [best|]; [|discriminate Hr].
  destruct (Py.Qlt_bool best Main.FACE_MATCH_THRESHOLD) eqn:Elt;
    [|discriminate Hr].
  apply Qlt_bool_iff in Elt. simpl in Hr. subst r0.
  destruct Inv as (pre & row & post & E & Hroll & Hc & Hpre & Hpost).
  exists pre, row, post, best. injection Hroll as ->.
  repeat split; trivial; apply Hc.
Qed.

Lemma identify_student_first_of_ties_witness :
  exists pre row post d,
    Sample.students_df = pre ++ row :: post /\
    Main.col_roll_no row = "13" /\
    Says.compared Sample.a_face row d /\
    (d < Main.FACE_MATCH_THRESHOLD)%Q /\
    (forall row' d', In row' pre -> Says.compared Sample.a_face row' d' ->
                     (d < d')%Q) /\
    (forall row' d', In row' post -> Says.compared Sample.a_face row' d' ->
                     (d <= d')%Q).
Proof.
  exact (identify_student_first_of_ties Sample.a_face Sample.students_df
                                        "13" eq_refl).
Defined.

(** ** Attention at the edges *)

(** X14.  [estimate_attention_status] pairs "Attentive" with green and
    "Not attentive" with red, and looks at the centre of the box only.  In
    a frame of width or height 0 or less no face is attentive; in a frame of
    positive width and height a face whose centre is the frame centre is. *)
Theorem attention_edges (x y w h frame_width frame_height : Z) :
  let r := Main.estimate_attention_status x y w h frame_width frame_height in
  (r = ("Attentive", (0, 255, 0)%Z) \/ r = ("Not attentive", (0, 0, 255)%Z)) /\
  (forall x' y' w' h',
      (x' + w' / 2 = x + w / 2)%Z -> (y' + h' / 2 = y + h / 2)%Z ->
      Main.estimate_attention_status x' y' w' h' frame_width frame_height
      = r) /\
  ((frame_width <= 0)%Z \/ (frame_height <= 0)%Z ->
   fst r = "Not attentive") /\
  ((0 < frame_width)%Z -> (0 < frame_height)%Z ->
   (x + w / 2 = frame_width / 2)%Z -> (y + h / 2 = frame_height / 2)%Z ->
   fst r = "Attentive").
Proof.
  intros r. subst r. unfold Main.estimate_attention_status.
  pose proof (Qlt_bool_iff
                (inject_Z (Z.abs (x + w / 2 - frame_width / 2)))
                (inject_Z frame_width * (1 # 4))) as Hx.
  pose proof (Qlt_bool_iff
                (inject_Z (Z.abs (y + h / 2 - frame_height / 2)))
                (inject_Z frame_height * (1 # 4))) as Hy.
  unfold Qlt in Hx, Hy. simpl in Hx, Hy.
  split; [|split; [|split]].
  - destruct (_ && _); [now left|now right].
  - intros x' y' w' h' Ex Ey. now rewrite Ex, Ey.
  - intros Hdeg.
    destruct (Py.Qlt_bool (inject_Z (Z.abs (x + w / 2 - frame_width / 2))) _)
      eqn:Bx; [|reflexivity].
    destruct (Py.Qlt_bool (inject_Z (Z.abs (y + h / 2 - frame_height / 2))) _)
      eqn:By; [|reflexivity].
    exfalso. pose proof (proj1 Hx eq_refl). pose proof (proj1 Hy eq_refl).
    lia.
  - intros Hw Hh Ex Ey.
    assert (Bx : Py.Qlt_bool
                   (inject_Z (Z.abs (x + w / 2 - frame_width / 2)))
                   (inject_Z frame_width * (1 # 4)) = true).
    { apply Hx. rewrite Ex. lia. }
    assert (By : Py.Qlt_bool
                   (inject_Z (Z.abs (y + h / 2 - frame_height / 2)))
                   (inject_Z frame_height * (1 # 4)) = true).
    { apply Hy. rewrite Ey. lia. }
    now rewrite Bx, By.
Qed.

(** ** How a run of the session script ends *)


(** ** Sorting and first occurrences *)

Section SortFacts.
Context {A : Type} (before : A -> A -> bool).
Hypothesis before_total :
  forall a b, before a b = false -> before b a = true.
Hypothesis before_trans :
  forall a b c, before a b = true -> before b c = true -> before a c = true.

Let ordered (a b : A) : Prop := before a b = true.

Lemma insert_in (a x : A) (l : list A) :
  In x (Pages.insert before a l) <-> x = a \/ In x l.
Proof.
  induction l as [|b l IH]; simpl; [intuition|].
  destruct (before a b); simpl; [intuition|]. rewrite IH. intuition.
Qed.

Lemma sort_in (x : A) (l : list A) : In x (Pages.sort before l) <-> In x l.
Proof.
  induction l as [|a l IH]; simpl; [tauto|].
  rewrite insert_in, IH. intuition.
Qed.

Lemma insert_length (a : A) (l : list A) :
  List.length (Pages.insert before a l) = S (List.length l).
Proof.
  induction l as [|b l IH]; simpl; [reflexivity|].
  destruct (before a b); simpl; [reflexivity|now rewrite IH].
Qed.

Lemma sort_length (l : list A) :
  List.length (Pages.sort before l) = List.length l.
Proof.
  induction l as [|a l IH]; simpl; [reflexivity|].
  now rewrite insert_length, IH.
Qed.

Lemma insert_sorted (a : A) (l : list A) :
  StronglySorted ordered l -> StronglySorted ordered (Pages.insert before a l).
Proof.
  induction l as [|b l IH]; intros Hs; simpl.
  - constructor; [constructor|constructor].
  - inversion Hs as [|? ? Hl Hb]; subst.
    destruct (before a b) eqn:E.
    + constructor; [exact Hs|]. constructor; [exact E|].
      apply Forall_forall. intros x Hx.
      rewrite Forall_forall in Hb. apply before_trans with b; [exact E|].
      now apply Hb.
    + constructor; [now apply IH|]. apply Forall_forall. intros x Hx.
      apply insert_in in Hx. destruct Hx as [->|Hx].
      * now apply before_total.
      * rewrite Forall_forall in Hb. now apply Hb.
Qed.

Lemma sort_sorted (l : list A) : StronglySorted ordered (Pages.sort before l).
Proof.
  induction l as [|a l IH]; simpl; [constructor|now apply insert_sorted].
Qed.

Lemma insert_nodup (a : A) (l : list A) :
  NoDup l -> ~ In a l -> NoDup (Pages.insert before a l).
Proof.
  induction l as [|b l IH]; intros Hnd Hnot; simpl.
  - constructor; [intros []|constructor].
  - destruct (before a b); [now constructor|].
    inversion Hnd as [|? ? Hb Hl]; subst. constructor.
    + rewrite insert_in. intros [->|H]; [|contradiction].
      apply Hnot. now left.
    + apply IH; [exact Hl|]. intros H. apply Hnot. now right.
Qed.

Lemma sort_nodup (l : list A) : NoDup l -> NoDup (Pages.sort before l).
Proof.
  induction 1 as [|a l Hnot Hnd IH]; simpl; [constructor|].
  apply insert_nodup; [exact IH|]. now rewrite sort_in.
Qed.

End SortFacts.

Section UniqueFacts.
Context {A : Type} (same : A -> A -> bool).
Hypothesis same_eq : forall a b, same a b = true <-> a = b.

Lemma unique_in (x : A) (l : list A) : In x (Pages.unique same l) <-> In x l.
Proof.
  induction l as [|a l IH]; simpl; [tauto|].
  rewrite filter_In, IH. split.
  - intros [->|[H _]]; [now left|now right].
  - intros [->|H]; [now left|].
    destruct (same a x) eqn:E.
    + apply same_eq in E. now left.
    + right. split; [exact H|reflexivity].
Qed.

Lemma unique_nodup (l : list A) : NoDup (Pages.unique same l).
Proof.
  induction l as [|a l IH]; simpl; constructor.
  - rewrite filter_In. intros [_ H]. apply negb_true_iff in H.
    assert (same a a = true) by now apply same_eq. congruence.
  - now apply NoDup_filter.
Qed.

End UniqueFacts.

Section StringOrder.

Lemma ascii_compare_lt_trans (a b c : ascii) :
  Ascii.compare a b = Lt -> Ascii.compare b c = Lt -> Ascii.compare a c = Lt.
Proof.
  unfold Ascii.compare. rewrite !N.compare_lt_iff. apply N.lt_trans.
Qed.

Lemma string_compare_lt_trans (a : string) :
  forall b c, String.compare a b = Lt -> String.compare b c = Lt ->
              String.compare a c = Lt.
Proof.
  induction a as [|x a IH]; intros [|y b] [|z c]; simpl; try discriminate;
    try reflexivity.
  destruct (Ascii.compare x y) eqn:Exy; try discriminate.
  - apply Ascii.compare_eq_iff in Exy. subst y.
    destruct (Ascii.compare x z); try discriminate; [apply IH|reflexivity].
  - intros _. destruct (Ascii.compare y z) eqn:Eyz; try discriminate.
    + apply Ascii.compare_eq_iff in Eyz. subst z. now rewrite Exy.
    + intros _. now rewrite (ascii_compare_lt_trans x y z Exy Eyz).
Qed.

Lemma string_compare_refl (a : string) : String.compare a a = Eq.
Proof.
  induction a as [|x a IH]; simpl; [reflexivity|].
  unfold Ascii.compare. now rewrite N.compare_refl.
Qed.

Lemma string_leb_trans (a b c : string) :
  String.leb a b = true -> String.leb b c = true -> String.leb a c = true.
Proof.
  unfold String.leb.
  destruct (String.compare a b) eqn:Eab; try discriminate; intros _.
  - apply String.compare_eq_iff in Eab. now subst b.
  - destruct (String.compare b c) eqn:Ebc; try discriminate; intros _.
    + apply String.compare_eq_iff in Ebc. subst c. now rewrite Eab.
    + now rewrite (string_compare_lt_trans a b c Eab Ebc).
Qed.

Lemma string_leb_total (a b : string) :
  String.leb a b = false -> String.leb b a = true.
Proof.
  intros H. destruct (String.leb_total a b) as [H'|H']; congruence.
Qed.

Lemma not_after_total (a b : Pages.session) :
  Pages.not_after a b = false -> Pages.not_after b a = true.
Proof.
  unfold Pages.not_after. rewrite (String.compare_antisym (fst b) (fst a)).
  destruct (String.compare (fst a) (fst b)); simpl; try discriminate.
  - apply string_leb_total.
  - reflexivity.
Qed.

Lemma not_after_trans (a b c : Pages.session) :
  Pages.not_after a b = true -> Pages.not_after b c = true ->
  Pages.not_after a c = true.
Proof.
  unfold Pages.not_after.
  destruct (String.compare (fst a) (fst b)) eqn:Eab; try discriminate.
  - apply String.compare_eq_iff in Eab. rewrite Eab.
    destruct (String.compare (fst b) (fst c)); try discriminate;
      [|reflexivity].
    intros H1 H2. now apply string_leb_trans with (snd b).
  - intros _.
    destruct (String.compare (fst b) (fst c)) eqn:Ebc; try discriminate.
    + apply String.compare_eq_iff in Ebc. rewrite <- Ebc, Eab. reflexivity.
    + intros _.
      assert (Hca : String.compare (fst c) (fst a) = Lt).
      { apply string_compare_lt_trans with (fst b).
        - rewrite String.compare_antisym, Ebc. reflexivity.
        - rewrite String.compare_antisym, Eab. reflexivity. }
      rewrite String.compare_antisym, Hca. reflexivity.
Qed.

Lemma same_session_eq (a b : Pages.session) :
  Pages.same_session a b = true <-> a = b.
Proof.
  unfold Pages.same_session. rewrite andb_true_iff, !String.eqb_eq.
  destruct a, b; simpl. split; [intros [-> ->]; reflexivity|].
  intros [= -> ->]. now split.
Qed.

End StringOrder.

(** ** The pages of the dashboard *)

(** X16.  The students page shows, in file order and with every cell
    stripped, the lines of students.csv whose department equals the stripped
    [department] argument up to case and surrounding blanks and whose
    section equals the stripped [section] argument in the same way; an
    argument that is empty or missing does not filter.  Its two dropdown
    lists hold every stripped department, and every stripped section, of
    the whole file once, in ascending order. *)
Theorem students_page_filters (args : PyDict.t string)
        (students_csv : option (list Dashboard.student)) :
  let page := Pages.students args students_csv in
  let lines := Says.rows_of students_csv in
  let department := PyStr.strip (PyDict.get args "department" "") in
  let section := PyStr.strip (PyDict.get args "section" "") in
  Pages.students_shown page
  = map PageTerms.shown_student
        (filter (fun line =>
                   PageTerms.passes department (Dashboard.department line)
                   && PageTerms.passes section (Dashboard.section line))
                lines) /\
  (StronglySorted (fun a b => String.leb a b = true)
                  (Pages.departments page) /\
   NoDup (Pages.departments page) /\
   forall d, In d (Pages.departments page)
             <-> exists line, In line lines /\
                              PyStr.strip (Dashboard.department line) = d) /\
  (StronglySorted (fun a b => String.leb a b = true) (Pages.sections page) /\
   NoDup (Pages.sections page) /\
   forall c, In c (Pages.sections page)
             <-> exists line, In line lines /\
                              PyStr.strip (Dashboard.section line) = c) /\
  Pages.selected_department page = department /\
  Pages.selected_section page = section.
Proof.
  intros page lines department section. subst page. unfold Pages.students.
  rewrite load_students_rows. fold lines. fold department. fold section.
  cbn [Pages.students_shown Pages.departments Pages.sections
       Pages.selected_department Pages.selected_section].
  set (table := map PageTerms.shown_student lines).
  assert (Drop : forall (col : Dashboard.student -> string),
             (forall line, col (PageTerms.shown_student line)
                           = PyStr.strip (col line)) ->
             let l := if negb (Dashboard.empty table)
                      then Pages.sorted
                             (Pages.unique String.eqb (map col table))
                      else [] in
             StronglySorted (fun a b => String.leb a b = true) l /\
             NoDup l /\
             forall d, In d l <-> exists line, In line lines /\
                                               PyStr.strip (col line) = d).
  { intros col Hcol l.
    assert (Hin : forall d, In d (map col table)
                            <-> exists line, In line lines /\
                                             PyStr.strip (col line) = d).
    { intros d. subst table. rewrite map_map, in_map_iff. split.
      - intros (line & E & Hl). exists line. now rewrite <- Hcol.
      - intros (line & Hl & E). exists line. now rewrite Hcol. }
    subst l. destruct table as [|r rest] eqn:Et; simpl negb; cbv iota.
    - split; [constructor|]. split; [constructor|]. intros d.
      rewrite <- Hin. simpl. tauto.
    - unfold Pages.sorted. split; [|split].
      + apply sort_sorted; [apply string_leb_total|apply string_leb_trans].
      + apply sort_nodup. apply unique_nodup. apply String.eqb_eq.
      + intros d. rewrite sort_in.
        rewrite (unique_in String.eqb String.eqb_eq). apply Hin. }
  split; [|split; [apply (Drop Dashboard.department); reflexivity
                  |split; [apply (Drop Dashboard.section); reflexivity
                          |now split]]].
  assert (All : forall l : list Dashboard.student,
             l = filter (fun _ => true) l).
  { induction l as [|a l IH]; simpl; [reflexivity|]. now rewrite <- IH. }
  subst table. unfold PageTerms.passes.
  destruct (PyStr.truthy department); destruct (PyStr.truthy section);
    cbn [negb orb].
  - rewrite filter_and, filter_map. f_equal.
  - rewrite filter_map. f_equal. apply filter_ext. intros r.
    cbn [PageTerms.shown_student Dashboard.department].
    now rewrite andb_true_r.
  - rewrite filter_map. f_equal.
  - rewrite (All lines) at 1. reflexivity.
Qed.

Lemma sessions_rows (class_report_csv : option (list Dashboard.report)) :
  Pages.sessions class_report_csv
  = Pages.sort Pages.not_after
      (Pages.unique Pages.same_session
         (map PageTerms.session_of (Says.rows_of class_report_csv))).
Proof.
  unfold Pages.sessions. rewrite load_reports_rows, map_map.
  now destruct (Says.rows_of class_report_csv).
Qed.

Lemma recent_sessions_rows
      (class_report_csv : option (list Dashboard.report)) :
  Pages.recent_sessions class_report_csv
  = firstn 10 (Pages.sessions class_report_csv).
Proof.
  unfold Pages.recent_sessions, Pages.sessions.
  now destruct (Dashboard.load_reports class_report_csv).
Qed.

(** X17.  The sessions page lists every (date, time) that occurs in the
    lines of class_report.csv, without their surrounding blanks, exactly
    once, ordered by date and then time, latest first; the home page shows
    the first ten entries of that list. *)
Theorem sessions_latest_first
        (class_report_csv : option (list Dashboard.report)) :
  let listed := Pages.sessions class_report_csv in
  let lines := Says.rows_of class_report_csv in
  StronglySorted (fun a b => Pages.not_after a b = true) listed /\
  NoDup listed /\
  (forall s, In s listed <->
             exists line, In line lines /\ PageTerms.session_of line = s) /\
  Pages.recent_sessions class_report_csv = firstn 10 listed /\
  List.length (Pages.recent_sessions class_report_csv) <= 10.
Proof.
  intros listed lines. subst listed.
  rewrite recent_sessions_rows, sessions_rows. fold lines.
  split; [|split; [|split; [|split]]].
  - apply sort_sorted; [apply not_after_total|apply not_after_trans].
  - apply sort_nodup. apply unique_nodup. apply same_session_eq.
  - intros s. rewrite sort_in.
    rewrite (unique_in Pages.same_session same_session_eq).
    rewrite in_map_iff. split.
    + intros (r & E & Hin). exists r. now split.
    + intros (r & Hin & E). exists r. now split.
  - reflexivity.
  - apply firstn_le_length.
Qed.



(** ** The DeepFace calls of a whole session *)

Section SessionCalls.
Import Main SessionTerms.

Lemma process_frame_calls students_df st fr :
  calls (process_frame students_df st fr)
  = calls st ++
    (if ((total_frames st + 1) mod PROCESS_EVERY_N_FRAMES =? 0)%Z
     then flat_map (Says.heavy_calls (total_frames st + 1) students_df)
                   (faces fr)
     else []) /\
  (((total_frames st + 1) mod PROCESS_EVERY_N_FRAMES =? 0)%Z = false ->
   attendance (process_frame students_df st fr) = attendance st).
Proof.
  unfold process_frame.
  set (st1 := {| attendance := attendance st;
                 total_frames := (total_frames st + 1)%Z;
                 calls := calls st |}).
  change (total_frames st1) with (total_frames st + 1)%Z.
  destruct ((total_frames st + 1) mod PROCESS_EVERY_N_FRAMES =? 0)%Z.
  - pose proof (process_faces_heavy students_df (width fr) (height fr)
                  (faces fr) st1) as Hh.
    cbv zeta in Hh. destruct Hh as (_ & Hc & _).
    split; [exact Hc|discriminate].
  - rewrite process_faces_light. simpl. rewrite app_nil_r. now split.
Qed.

Lemma fold_frames_calls students_df frames :
  forall st,
    calls (fold_left (process_frame students_df) frames st)
    = calls st ++ calls_from (total_frames st) students_df frames.
Proof.
  induction frames as [|fr frames IH]; intros st; simpl.
  - now rewrite app_nil_r.
  - rewrite IH, process_frame_total.
    destruct (process_frame_calls students_df st fr) as [Hc _].
    rewrite Hc, <- app_assoc. reflexivity.
Qed.

Lemma fold_frames_short students_df frames :
  forall st,
    (total_frames st + Z.of_nat (List.length frames) < 3)%Z ->
    (0 <= total_frames st)%Z ->
    attendance (fold_left (process_frame students_df) frames st)
    = attendance st /\
    calls_from (total_frames st) students_df frames = [].
Proof.
  induction frames as [|fr frames IH]; intros st Hlt H0; [now split|].
  cbn [fold_left calls_from]. simpl List.length in Hlt.
  assert (Hm : ((total_frames st + 1) mod PROCESS_EVERY_N_FRAMES =? 0)%Z
               = false).
  { apply Z.eqb_neq. unfold PROCESS_EVERY_N_FRAMES.
    rewrite Z.mod_small by lia. lia. }
  destruct (process_frame_calls students_df st fr) as [_ Ha].
  specialize (Ha Hm).
  destruct (IH (process_frame students_df st fr)) as [IHa IHc].
  - rewrite process_frame_total. lia.
  - rewrite process_frame_total. lia.
  - rewrite process_frame_total in IHc. rewrite Hm, IHa, Ha, IHc.
    now split.
Qed.

End SessionCalls.

(** X19.  Over a whole session the DeepFace calls are those of the
    captured frames number 3, 6, 9, ... and of no other frame, in order.  In
    particular a session of fewer than three captured frames calls DeepFace
    not at all and leaves every student uncounted. *)
Theorem session_calls_every_third
        (students_df : list Main.student_row) (turns : list Main.frame) :
  let st := fst (Main.session_loop students_df turns
                                   (Main.start students_df)) in
  Main.calls st
  = SessionTerms.calls_from 0 students_df (SessionTerms.captured turns) /\
  (List.length (SessionTerms.captured turns) < 3 ->
   Main.calls st = [] /\
   Main.attendance st = Main.init_attendance_dict students_df).
Proof.
  intros st. subst st.
  destruct (session_loop_captured students_df turns (Main.start students_df))
    as [Hf _].
  rewrite Hf, fold_frames_calls. simpl Main.calls. simpl Main.total_frames.
  split; [reflexivity|]. intros Hlen.
  destruct (fold_frames_short students_df (SessionTerms.captured turns)
                              (Main.start students_df)) as [Ha Hc].
  - simpl. lia.
  - simpl. lia.
  - simpl Main.total_frames in Hc. rewrite Hc, Ha. now split.
Qed.

Lemma session_calls_every_third_witness :
  Main.calls (fst (Main.session_loop Sample.students_df
                                     [Sample.shot (-1); Sample.shot 113]
                                     (Main.start Sample.students_df))) = [].
Proof.
  refine (proj1 (proj2 (session_calls_every_third Sample.students_df
                          [Sample.shot (-1); Sample.shot 113]) _)).
  simpl. lia.
Defined.

(** ** Every identified face is counted *)

Section CountedFacts.
Import Main.

Lemma identify_in_table (f : face) (students_df : list student_row) r :
  identify_student f students_df = Some r ->
  In r (map col_roll_no students_df).
Proof.
  destruct (identify_student_best f students_df)
    as (r0 & d & calls & _ & Inv & Res).
  rewrite Res. destruct d as [best|]; [|discriminate].
  destruct (Py.Qlt_bool best FACE_MATCH_THRESHOLD); [|discriminate].
  intros ->. destruct Inv as [(row & Hin & [= ->] & _) _].
  now apply in_map.
Qed.

End CountedFacts.

(** X20.  The roll number that [identify_student] answers is always a key
    of the attendance dictionary of the session, so on a frame that is
    processed every identified face is counted: the student's entry keeps
    its name, department, section, email and phone, gets the flag, one more
    present frame, one more attentive frame exactly when the face is
    centred, and the emotion answered unless it is "unknown"; the keys of
    the dictionary and every other entry stay as they were. *)
Theorem identified_face_is_counted
        (students_df : list Main.student_row) (turns : list Main.frame)
        (f : Main.face) (w h : Z) (r : string) :
  Main.identify_student f students_df = Some r ->
  let st := fst (Main.session_loop students_df turns
                                   (Main.start students_df)) in
  exists i i',
    PyDict.lookup (Main.attendance st) r = Some i /\
    Says.marked f w h i i' /\
    Says.entry_replaced
      (Main.attendance st) r i'
      (Main.attendance (Main.process_face students_df true w h st f)).
Proof.
  intros Hid st.
  assert (Hkey : In r (PyDict.keys (Main.attendance st))).
  { subst st. rewrite session_loop_keys. apply (init_keys students_df).
    now apply identify_in_table with f. }
  destruct (PyDict.lookup (Main.attendance st) r) as [i|] eqn:E.
  - exists i. eexists. split; [reflexivity|].
    pose proof (process_face_heavy students_df w h st f) as Hh.
    cbv zeta in Hh. destruct Hh as (_ & _ & Ha). rewrite Ha.
    unfold Says.counted. rewrite Hid, E.
    split; [apply mark_seen_marked|now apply set_replaced with i].
  - apply lookup_none in E. contradiction.
Qed.

Lemma identified_face_is_counted_witness :
  exists i i',
    PyDict.lookup
      (Main.attendance
         (fst (Main.session_loop Sample.students_df Sample.turns
                                 (Main.start Sample.students_df)))) "13"
    = Some i /\
    Says.marked Sample.a_face 640 480 i i' /\
    Says.entry_replaced
      (Main.attendance
         (fst (Main.session_loop Sample.students_df Sample.turns
                                 (Main.start Sample.students_df))))
      "13" i'
      (Main.attendance
         (Main.process_face Sample.students_df true 640 480
            (fst (Main.session_loop Sample.students_df Sample.turns
                                    (Main.start Sample.students_df)))
            Sample.a_face)).
Proof.
  exact (identified_face_is_counted Sample.students_df Sample.turns
                                    Sample.a_face 640 480 "13" eq_refl).
Defined.
